(** * openmc.model.Model: a shallow embedding of the model container

    The Python class [openmc.model.Model] (src/openmc/model/model.py) bundles
    six sub-objects, type-checks every assignment to them, exports them to
    XML files, and drives the external transport and depletion solvers.

    The embedding follows the source line by line in a small state and
    exception monad.  The state holds the attribute store of [self], the
    mutable collections ([Materials], [Tallies], [Plots]) in a store indexed
    by object identity, and the chronological trace of calls made into
    external collaborators (XML export of a sub-object, the solver
    executable, the statepoint reader, the depletion operator and
    integrators).  External collaborators are black boxes that return
    normally; what is recorded is that they were called, in which order, and
    on what. *)

From stdpp Require Import gmap strings list fin_maps pretty.

Abbreviation loc := nat.

(** ** Sub-objects *)

Record Material := { material_id : Z; material_name : string }.
Record Tally := { tally_id : Z; tally_name : string }.
Record Plot := { plot_id : Z; plot_name : string }.
Record CMFD := { cmfd_begin : Z }.

(** Modelled from the spec: [openmc.Geometry] is not among the sources.  The
    only thing the model container asks of a geometry is
    [get_all_materials()], an ordered dictionary from material id to the
    materials the geometry references. *)
Record Geometry := { all_materials : list (Z * Material) }.

(** Modelled from the spec: [openmc.Settings] is not among the sources.  The
    container reads three attributes: [batches] (an integer, or [None] while
    unset), [dagmc] (a flag) and [statepoint] ([None] or a dictionary that may
    have a ['batches'] entry listing the batches at which a statepoint file is
    written). *)
Record Settings := {
  batches : option Z;
  dagmc : bool;
  statepoint : option (gmap string (list Z))
}.

(** A combined estimate: nominal value and standard deviation. *)
Record UFloat := { nominal_value : Z * positive; std_dev : Z * positive }.

(** ** Python values

    Attributes and arguments are dynamically typed.  A [Materials], [Tallies]
    or [Plots] object is a mutable list and is denoted by its identity; a
    tuple stands for any immutable sequence handed in by the caller. *)
#[warnings="-register-all"]
Inductive pyval :=
| PNone
| PInt (z : Z)
| PStr (s : string)
| PTuple (items : list pyval)
| PGeometry (g : Geometry)
| PSettings (s : Settings)
| PCMFD (c : CMFD)
| PMaterial (m : Material)
| PTally (t : Tally)
| PPlot (p : Plot)
| PMaterials (l : loc)
| PTallies (l : loc)
| PPlots (l : loc).

Inductive pyclass :=
| ClsNoneType | ClsIterable
| ClsGeometry | ClsSettings | ClsCMFD
| ClsMaterial | ClsTally | ClsPlot
| ClsMaterials | ClsTallies | ClsPlots.

Definition instance_of (v : pyval) (c : pyclass) : bool :=
  match c, v with
  | ClsNoneType, PNone => true
  | ClsIterable, (PStr _ | PTuple _ | PMaterials _ | PTallies _ | PPlots _) => true
  | ClsGeometry, PGeometry _ => true
  | ClsSettings, PSettings _ => true
  | ClsCMFD, PCMFD _ => true
  | ClsMaterial, PMaterial _ => true
  | ClsTally, PTally _ => true
  | ClsPlot, PPlot _ => true
  | ClsMaterials, PMaterials _ => true
  | ClsTallies, PTallies _ => true
  | ClsPlots, PPlots _ => true
  | _, _ => false
  end.

(** [isinstance(v, (c1, ..., cn))] *)
Definition isinstance (v : pyval) (classes : list pyclass) : bool :=
  existsb (instance_of v) classes.

Definition is_None (v : pyval) : bool :=
  match v with PNone => true | _ => false end.

(** [v == s] for a string literal [s] *)
Definition py_eq_str (v : pyval) (s : string) : bool :=
  match v with PStr s' => bool_decide (s' = s) | _ => false end.

Definition Kwargs := list (string * pyval).

(** ** Calls into external collaborators *)

Inductive XmlDoc :=
| XSettings (s : Settings)
| XGeometry (g : Geometry)
| XMaterials (ms : list Material)
| XTallies (ts : list Tally)
| XCMFD (c : CMFD)
| XPlots (ps : list Plot).

(** Modelled from the spec: the file each sub-object's [export_to_xml] writes
    ("Output files: geometry.xml, materials.xml, settings.xml, tallies.xml,
    plots.xml, cmfd.xml"). *)
Definition xml_path (d : XmlDoc) : string :=
  match d with
  | XSettings _ => "settings.xml"
  | XGeometry _ => "geometry.xml"
  | XMaterials _ => "materials.xml"
  | XTallies _ => "tallies.xml"
  | XCMFD _ => "cmfd.xml"
  | XPlots _ => "plots.xml"
  end.

Record Operator := {
  op_geometry : pyval;
  op_settings : pyval;
  op_chain_file : pyval
}.

Inductive Integrator := predictor | cecm.

Inductive Event :=
| ExportToXml (receiver : pyval) (doc : XmlDoc)
| OpenmcRun (kwargs : Kwargs)
| StatePointOpen (filename : string)
| StatePointClose (filename : string)
| OperatorInit (op : Operator)
| IntegratorCall (f : Integrator) (op : Operator)
                 (timesteps power : pyval) (kwargs : Kwargs).

(** ** State *)

Record ModelObj := {
  _geometry : option pyval;
  _materials : option pyval;
  _settings : option pyval;
  _tallies : option pyval;
  _cmfd : option pyval;
  _plots : option pyval
}.

(** The object before [__init__] has assigned anything. *)
Definition blank : ModelObj :=
  {| _geometry := None; _materials := None; _settings := None;
     _tallies := None; _cmfd := None; _plots := None |}.

Record State := {
  self : ModelObj;
  heap_materials : gmap loc (list Material);
  heap_tallies : gmap loc (list Tally);
  heap_plots : gmap loc (list Plot);
  next_loc : loc;
  trace : list Event
}.

Definition with_self (o : ModelObj) (st : State) : State :=
  {| self := o; heap_materials := heap_materials st;
     heap_tallies := heap_tallies st; heap_plots := heap_plots st;
     next_loc := next_loc st; trace := trace st |}.

Definition with_heap_materials (h : gmap loc (list Material)) (st : State) : State :=
  {| self := self st; heap_materials := h;
     heap_tallies := heap_tallies st; heap_plots := heap_plots st;
     next_loc := next_loc st; trace := trace st |}.

Definition with_heap_tallies (h : gmap loc (list Tally)) (st : State) : State :=
  {| self := self st; heap_materials := heap_materials st;
     heap_tallies := h; heap_plots := heap_plots st;
     next_loc := next_loc st; trace := trace st |}.

Definition with_heap_plots (h : gmap loc (list Plot)) (st : State) : State :=
  {| self := self st; heap_materials := heap_materials st;
     heap_tallies := heap_tallies st; heap_plots := h;
     next_loc := next_loc st; trace := trace st |}.

Definition with_next_loc (n : loc) (st : State) : State :=
  {| self := self st; heap_materials := heap_materials st;
     heap_tallies := heap_tallies st; heap_plots := heap_plots st;
     next_loc := n; trace := trace st |}.

Definition with_trace (t : list Event) (st : State) : State :=
  {| self := self st; heap_materials := heap_materials st;
     heap_tallies := heap_tallies st; heap_plots := heap_plots st;
     next_loc := next_loc st; trace := t |}.

(** A world in which nothing has been allocated or called yet. *)
Definition empty_state : State :=
  {| self := blank; heap_materials := ∅; heap_tallies := ∅; heap_plots := ∅;
     next_loc := 0; trace := [] |}.

(** ** The monad: state passing with exceptions *)

Inductive exn :=
| TypeError (what : string)
| ValueError (what : string)
| AttributeError (attr : string)
| IndexError.

Inductive Result (A : Type) :=
| Ok (a : A)
| Raise (e : exn).
Arguments Ok {A} a.
Arguments Raise {A} e.

Definition M (A : Type) : Type := State → Result A * State.

#[global] Instance M_ret : MRet M := λ A a st, (Ok a, st).

#[global] Instance M_bind : MBind M := λ A B f m st,
  match m st with
  | (Ok a, st') => f a st'
  | (Raise e, st') => (Raise e, st')
  end.

Definition raise {A} (e : exn) : M A := λ st, (Raise e, st).
Definition get_state : M State := λ st, (Ok st, st).
Definition modify (f : State → State) : M unit := λ st, (Ok tt, f st).

(** [for x in xs: body(x)] *)
Fixpoint for_ {A} (xs : list A) (body : A → M unit) : M unit :=
  match xs with
  | [] => mret tt
  | x :: xs' => body x ;; for_ xs' body
  end.

Definition emit (e : Event) : M unit :=
  modify (λ st, with_trace (trace st ++ [e]) st).

(** ** Python operations on values *)

(** The one-character strings a string yields when iterated. *)
Fixpoint str_items (s : string) : list pyval :=
  match s with
  | EmptyString => []
  | String c s' => PStr (String c EmptyString) :: str_items s'
  end.

Definition is_nil {A} (xs : list A) : bool :=
  match xs with [] => true | _ => false end.

(** [iter(v)], run to exhaustion *)
Definition py_iter (v : pyval) : M (list pyval) :=
  match v with
  | PStr s => mret (str_items s)
  | PTuple items => mret items
  | PMaterials l => st ← get_state; mret (PMaterial <$> heap_materials st !!! l)
  | PTallies l => st ← get_state; mret (PTally <$> heap_tallies st !!! l)
  | PPlots l => st ← get_state; mret (PPlot <$> heap_plots st !!! l)
  | _ => raise (TypeError "object is not iterable")
  end.

(** [bool(v)]: empty sequences, zero and [None] are false *)
Definition py_bool (v : pyval) : M bool :=
  match v with
  | PNone => mret false
  | PInt z => mret (negb (bool_decide (z = 0%Z)))
  | PStr s => mret (negb (bool_decide (s = EmptyString)))
  | PTuple items => mret (negb (is_nil items))
  | PMaterials l => st ← get_state; mret (negb (is_nil (heap_materials st !!! l)))
  | PTallies l => st ← get_state; mret (negb (is_nil (heap_tallies st !!! l)))
  | PPlots l => st ← get_state; mret (negb (is_nil (heap_plots st !!! l)))
  | _ => mret true
  end.

(** [del v[:]] *)
Definition py_del_all (v : pyval) : M unit :=
  match v with
  | PMaterials l => modify (λ st, with_heap_materials (<[l := []]> (heap_materials st)) st)
  | PTallies l => modify (λ st, with_heap_tallies (<[l := []]> (heap_tallies st)) st)
  | PPlots l => modify (λ st, with_heap_plots (<[l := []]> (heap_plots st)) st)
  | _ => raise (TypeError "object does not support item deletion")
  end.

(** Modelled from the spec: the collection classes [openmc.Materials],
    [openmc.Tallies] and [openmc.Plots] are not among the sources.  Each is a
    list of items of its own element class, so [v.append(item)] raises on
    anything else; a tuple has no [append]. *)
Definition py_append (v item : pyval) : M unit :=
  match v, item with
  | PMaterials l, PMaterial m =>
      modify (λ st, with_heap_materials
                      (<[l := heap_materials st !!! l ++ [m]]> (heap_materials st)) st)
  | PTallies l, PTally t =>
      modify (λ st, with_heap_tallies
                      (<[l := heap_tallies st !!! l ++ [t]]> (heap_tallies st)) st)
  | PPlots l, PPlot p =>
      modify (λ st, with_heap_plots
                      (<[l := heap_plots st !!! l ++ [p]]> (heap_plots st)) st)
  | PMaterials _, _ => raise (TypeError "materials collection")
  | PTallies _, _ => raise (TypeError "tallies collection")
  | PPlots _, _ => raise (TypeError "plots collection")
  | _, _ => raise (AttributeError "append")
  end.

(** [xs[-1]] *)
Definition py_last (xs : list Z) : M Z :=
  match last xs with
  | Some z => mret z
  | None => raise IndexError
  end.

(** ['{}'.format(n)] for an integer or [None] *)
Definition py_format (n : option Z) : string :=
  match n with
  | Some z => pretty z
  | None => "None"
  end.

(** ** Constructors of the sub-objects *)

Definition fresh : M loc :=
  st ← get_state;
  modify (with_next_loc (S (next_loc st))) ;;
  mret (next_loc st).

(** [openmc.Materials(items)]: a new collection holding [items] *)
Definition Materials_new (items : list Material) : M pyval :=
  l ← fresh;
  modify (λ st, with_heap_materials (<[l := items]> (heap_materials st)) st) ;;
  mret (PMaterials l).

(** [openmc.Tallies()] *)
Definition Tallies_new : M pyval :=
  l ← fresh;
  modify (λ st, with_heap_tallies (<[l := []]> (heap_tallies st)) st) ;;
  mret (PTallies l).

(** [openmc.Plots()] *)
Definition Plots_new : M pyval :=
  l ← fresh;
  modify (λ st, with_heap_plots (<[l := []]> (heap_plots st)) st) ;;
  mret (PPlots l).

(** Modelled from the spec: [openmc.Geometry()] with no root universe
    references no material. *)
Definition Geometry_new : M pyval :=
  mret (PGeometry {| all_materials := [] |}).

(** Modelled from the spec: [openmc.Settings()], nothing configured yet. *)
Definition Settings_new : M pyval :=
  mret (PSettings {| batches := None; dagmc := false; statepoint := Some ∅ |}).

(** ** Methods and attributes of the sub-objects *)

(** Modelled from the spec: [obj.export_to_xml()] of a sub-object writes the
    XML file of that sub-object from its current contents; other values have
    no such method. *)
Definition call_export_to_xml (obj : pyval) : M unit :=
  match obj with
  | PSettings s => emit (ExportToXml obj (XSettings s))
  | PGeometry g => emit (ExportToXml obj (XGeometry g))
  | PCMFD c => emit (ExportToXml obj (XCMFD c))
  | PMaterials l =>
      st ← get_state; emit (ExportToXml obj (XMaterials (heap_materials st !!! l)))
  | PTallies l =>
      st ← get_state; emit (ExportToXml obj (XTallies (heap_tallies st !!! l)))
  | PPlots l =>
      st ← get_state; emit (ExportToXml obj (XPlots (heap_plots st !!! l)))
  | _ => raise (AttributeError "export_to_xml")
  end.

(** Modelled from the spec: [obj.get_all_materials().values()], the
    materials a geometry references. *)
Definition call_get_all_materials_values (obj : pyval) : M (list Material) :=
  match obj with
  | PGeometry g => mret (snd <$> all_materials g)
  | _ => raise (AttributeError "get_all_materials")
  end.

Definition getattr_dagmc (obj : pyval) : M bool :=
  match obj with
  | PSettings s => mret (dagmc s)
  | _ => raise (AttributeError "dagmc")
  end.

Definition getattr_batches (obj : pyval) : M (option Z) :=
  match obj with
  | PSettings s => mret (batches s)
  | _ => raise (AttributeError "batches")
  end.

Definition getattr_statepoint (obj : pyval) : M (option (gmap string (list Z))) :=
  match obj with
  | PSettings s => mret (statepoint s)
  | _ => raise (AttributeError "statepoint")
  end.

(** Modelled from the spec: [openmc.run], handed the caller's keyword
    arguments, runs the solver executable and returns. *)
Definition openmc_run (kwargs : Kwargs) : M unit :=
  emit (OpenmcRun kwargs).

(** Modelled from the spec: [openmc.deplete.Operator(geometry, settings,
    chain_file)] builds the transport operator from its three arguments. *)
Definition Operator_new (geometry settings chain_file : pyval) : M Operator :=
  let op := {| op_geometry := geometry; op_settings := settings;
               op_chain_file := chain_file |} in
  emit (OperatorInit op) ;; mret op.

(** Modelled from the spec: [openmc.deplete.integrator.<f>], applied to
    [op, timesteps, power] and the caller's keyword arguments. *)
Definition integrator_call (f : Integrator) (op : Operator)
    (timesteps power : pyval) (kwargs : Kwargs) : M unit :=
  emit (IntegratorCall f op timesteps power kwargs).

(** ** openmc.checkvalue *)

(** Modelled from the spec: [check_type] lives in openmc/checkvalue.py, which
    is not among the sources.  "Type-checking on every property setter raises
    on mismatched types": the value must be an instance of (one of) the
    expected type(s) and, when an element type is given, every item the value
    yields must be an instance of it. *)
Definition check_type (name : string) (value : pyval)
    (expected_type : list pyclass) (expected_iter_type : option pyclass) : M unit :=
  if negb (isinstance value expected_type) then raise (TypeError name)
  else
    match expected_iter_type with
    | None => mret tt
    | Some t =>
        items ← py_iter value;
        for_ items (λ item,
          if negb (isinstance item [t]) then raise (TypeError name) else mret tt)
    end.

(** Modelled from the spec: [check_value] lives in openmc/checkvalue.py, which
    is not among the sources.  "An unrecognized depletion method raises via an
    enumerated-value check": the value must be one of the accepted values. *)
Definition check_value (name : string) (value : pyval)
    (accepted_values : list string) : M unit :=
  if negb (existsb (py_eq_str value) accepted_values) then raise (ValueError name)
  else mret tt.

(** ** Attribute access on [self] *)

(** [self.<name>] for a stored attribute; unset attributes raise. *)
Definition getattr (field : ModelObj → option pyval) (name : string) : M pyval :=
  st ← get_state;
  match field (self st) with
  | Some v => mret v
  | None => raise (AttributeError name)
  end.

Definition set__geometry (v : pyval) (o : ModelObj) : ModelObj :=
  {| _geometry := Some v; _materials := _materials o; _settings := _settings o;
     _tallies := _tallies o; _cmfd := _cmfd o; _plots := _plots o |}.

Definition set__materials (v : pyval) (o : ModelObj) : ModelObj :=
  {| _geometry := _geometry o; _materials := Some v; _settings := _settings o;
     _tallies := _tallies o; _cmfd := _cmfd o; _plots := _plots o |}.

Definition set__settings (v : pyval) (o : ModelObj) : ModelObj :=
  {| _geometry := _geometry o; _materials := _materials o; _settings := Some v;
     _tallies := _tallies o; _cmfd := _cmfd o; _plots := _plots o |}.

Definition set__tallies (v : pyval) (o : ModelObj) : ModelObj :=
  {| _geometry := _geometry o; _materials := _materials o; _settings := _settings o;
     _tallies := Some v; _cmfd := _cmfd o; _plots := _plots o |}.

Definition set__cmfd (v : pyval) (o : ModelObj) : ModelObj :=
  {| _geometry := _geometry o; _materials := _materials o; _settings := _settings o;
     _tallies := _tallies o; _cmfd := Some v; _plots := _plots o |}.

Definition set__plots (v : pyval) (o : ModelObj) : ModelObj :=
  {| _geometry := _geometry o; _materials := _materials o; _settings := _settings o;
     _tallies := _tallies o; _cmfd := _cmfd o; _plots := Some v |}.

(** [self.<name> = v] for a stored attribute *)
Definition setattr (update : pyval → ModelObj → ModelObj) (v : pyval) : M unit :=
  modify (λ st, with_self (update v (self st)) st).

(** ** class Model *)

Module Model.

(** *** Property getters (model.py, lines 70-92) *)

Definition geometry : M pyval := getattr _geometry "_geometry".
Definition materials : M pyval := getattr _materials "_materials".
Definition settings : M pyval := getattr _settings "_settings".
Definition tallies : M pyval := getattr _tallies "_tallies".
Definition cmfd : M pyval := getattr _cmfd "_cmfd".
Definition plots : M pyval := getattr _plots "_plots".

(** *** Property setters (model.py, lines 94-137) *)

Definition geometry_setter (geometry : pyval) : M unit :=
  check_type "geometry" geometry [ClsGeometry] None ;;
  setattr set__geometry geometry.

Definition materials_setter (materials : pyval) : M unit :=
  check_type "materials" materials [ClsIterable] (Some ClsMaterial) ;;
  if isinstance materials [ClsMaterials] then
    setattr set__materials materials
  else
    (cur ← getattr _materials "_materials"; py_del_all cur) ;;
    items ← py_iter materials;
    for_ items (λ mat,
      cur ← getattr _materials "_materials"; py_append cur mat).

Definition settings_setter (settings : pyval) : M unit :=
  check_type "settings" settings [ClsSettings] None ;;
  setattr set__settings settings.

Definition tallies_setter (tallies : pyval) : M unit :=
  check_type "tallies" tallies [ClsIterable] (Some ClsTally) ;;
  if isinstance tallies [ClsTallies] then
    setattr set__tallies tallies
  else
    (cur ← getattr _tallies "_tallies"; py_del_all cur) ;;
    items ← py_iter tallies;
    for_ items (λ tally,
      cur ← getattr _tallies "_tallies"; py_append cur tally).

Definition cmfd_setter (cmfd : pyval) : M unit :=
  check_type "cmfd" cmfd [ClsCMFD; ClsNoneType] None ;;
  setattr set__cmfd cmfd.

Definition plots_setter (plots : pyval) : M unit :=
  check_type "plots" plots [ClsIterable] (Some ClsPlot) ;;
  if isinstance plots [ClsPlots] then
    setattr set__plots plots
  else
    (cur ← getattr _plots "_plots"; py_del_all cur) ;;
    items ← py_iter plots;
    for_ items (λ plot,
      cur ← getattr _plots "_plots"; py_append cur plot).

(** *** Constructor (model.py, lines 50-68) *)

Definition __init__ (geometry materials settings tallies cmfd plots : pyval)
    : M unit :=
  (v ← Geometry_new; geometry_setter v) ;;
  (v ← Materials_new []; materials_setter v) ;;
  (v ← Settings_new; settings_setter v) ;;
  cmfd_setter cmfd ;;
  (v ← Tallies_new; tallies_setter v) ;;
  (v ← Plots_new; plots_setter v) ;;
  (if negb (is_None geometry) then geometry_setter geometry else mret tt) ;;
  (if negb (is_None materials) then materials_setter materials else mret tt) ;;
  (if negb (is_None settings) then settings_setter settings else mret tt) ;;
  (if negb (is_None tallies) then tallies_setter tallies else mret tt) ;;
  (if negb (is_None plots) then plots_setter plots else mret tt).

(** *** deplete (model.py, lines 139-178) *)

Definition deplete_default_chain_file : pyval := PNone.
Definition deplete_default_method : pyval := PStr "cecm".

Definition deplete (timesteps power chain_file method : pyval)
    (kwargs : Kwargs) : M unit :=
  op ← (g ← geometry; s ← settings; Operator_new g s chain_file);
  if py_eq_str method "predictor" then
    integrator_call predictor op timesteps power kwargs
  else if py_eq_str method "cecm" then
    integrator_call cecm op timesteps power kwargs
  else
    check_value "method" method ["cecm"; "predictor"].

(** *** export_to_xml (model.py, lines 180-202) *)

Definition export_to_xml : M unit :=
  (s ← settings; call_export_to_xml s) ;;
  d ← (s ← settings; getattr_dagmc s);
  (if negb d then g ← geometry; call_export_to_xml g else mret tt) ;;
  b ← (ms ← materials; py_bool ms);
  (if b : bool then
     ms ← materials; call_export_to_xml ms
   else
     materials ← (g ← geometry;
                  vals ← call_get_all_materials_values g;
                  Materials_new vals);
     call_export_to_xml materials) ;;
  b ← (ts ← tallies; py_bool ts);
  (if b : bool then ts ← tallies; call_export_to_xml ts else mret tt) ;;
  c ← cmfd;
  (if negb (is_None c) then c ← cmfd; call_export_to_xml c else mret tt) ;;
  b ← (ps ← plots; py_bool ps);
  if b : bool then ps ← plots; call_export_to_xml ps else mret tt.

(** *** run (model.py, lines 204-228) *)

Section Run.

(** The combined k-effective stored in the statepoint file of a given
    name once the solver has returned. *)
Variable k_combined : string → UFloat.

(** [with openmc.StatePoint(filename) as sp: return sp.k_combined]: the
    file is opened, its combined k-effective read, and the file closed. *)
Definition read_k_combined (filename : string) : M UFloat :=
  emit (StatePointOpen filename) ;;
  k ← mret (k_combined filename);
  emit (StatePointClose filename) ;;
  mret k.

(** [self.settings.statepoint] is read up to three times in the source;
    reading it has no effect, so it is read once here. *)
Definition run (kwargs : Kwargs) : M UFloat :=
  export_to_xml ;;
  openmc_run kwargs ;;
  n ← (s ← settings; getattr_batches s);
  sp ← (s ← settings; getattr_statepoint s);
  n ← (match sp with
       | Some sp =>
           match sp !! "batches" with
           | Some bs => z ← py_last bs; mret (Some z)
           | None => mret n
           end
       | None => mret n
       end : M (option Z));
  read_k_combined ("statepoint." +:+ py_format n +:+ ".h5").

End Run.

End Model.

(** ** Vocabulary of the specification *)

(** What a constructed model stores: the class invariant established by
    [__init__] and kept by every setter (lemmas [init_is_model] and
    [assign_keeps_model] below). *)
Record ModelView := {
  mv_geometry : Geometry;
  mv_materials : loc;
  mv_settings : Settings;
  mv_tallies : loc;
  mv_cmfd : option CMFD;
  mv_plots : loc
}.

Definition cmfd_value (c : option CMFD) : pyval :=
  match c with
  | Some c => PCMFD c
  | None => PNone
  end.

Definition obj_of (mv : ModelView) : ModelObj :=
  {| _geometry := Some (PGeometry (mv_geometry mv));
     _materials := Some (PMaterials (mv_materials mv));
     _settings := Some (PSettings (mv_settings mv));
     _tallies := Some (PTallies (mv_tallies mv));
     _cmfd := Some (cmfd_value (mv_cmfd mv));
     _plots := Some (PPlots (mv_plots mv)) |}.

(** The world [st] as seen by a call on the model [mv]. *)
Definition on_model (mv : ModelView) (st : State) : State :=
  with_self (obj_of mv) st.

(** The six sub-object properties. *)
Inductive Property :=
| P_geometry | P_materials | P_settings | P_tallies | P_cmfd | P_plots.

(** [model.<p> = v] *)
Definition assign (p : Property) (v : pyval) : M unit :=
  match p with
  | P_geometry => Model.geometry_setter v
  | P_materials => Model.materials_setter v
  | P_settings => Model.settings_setter v
  | P_tallies => Model.tallies_setter v
  | P_cmfd => Model.cmfd_setter v
  | P_plots => Model.plots_setter v
  end.

(** [v] can be iterated and every item it yields is an instance of [c]. *)
Definition iterable_of (c : pyclass) (v : pyval) (st : State) : bool :=
  match py_iter v st with
  | (Ok items, _) => forallb (λ item, instance_of item c) items
  | (Raise _, _) => false
  end.

(** The type each property asks of an assigned value. *)
Definition right_type (p : Property) (v : pyval) (st : State) : bool :=
  match p with
  | P_geometry => instance_of v ClsGeometry
  | P_materials => iterable_of ClsMaterial v st
  | P_settings => instance_of v ClsSettings
  | P_tallies => iterable_of ClsTally v st
  | P_cmfd => instance_of v ClsCMFD || is_None v
  | P_plots => iterable_of ClsPlot v st
  end.

(** The calls made between two states of the world. *)
Definition events_since (st st' : State) : list Event :=
  drop (length (trace st)) (trace st').

(** The exports among some events that wrote the file [path], each with
    the object that was exported and the document written. *)
Definition exported_to (path : string) (evs : list Event) : list (pyval * XmlDoc) :=
  omap (λ e, match e with
             | ExportToXml r d =>
                 if bool_decide (xml_path d = path) then Some (r, d) else None
             | _ => None
             end) evs.

Definition is_export (e : Event) : bool :=
  match e with ExportToXml _ _ => true | _ => false end.

Definition is_integrator_call (e : Event) : bool :=
  match e with IntegratorCall _ _ _ _ _ => true | _ => false end.

Definition is_statepoint_open (e : Event) : bool :=
  match e with StatePointOpen _ => true | _ => false end.

Definition integrator_name (f : Integrator) : string :=
  match f with
  | predictor => "predictor"
  | cecm => "cecm"
  end.

(** Nothing has been allocated at or beyond the allocation pointer. *)
Definition heap_wf (st : State) : Prop :=
  ∀ l, next_loc st ≤ l →
       heap_materials st !! l = None ∧
       heap_tallies st !! l = None ∧
       heap_plots st !! l = None.

(** The statepoint file name the spec gives for [Model.run]:
    ['statepoint.<batches>.h5'] with the settings' batch count. *)
Definition statepoint_name_by_batches (s : Settings) : string :=
  "statepoint." +:+ py_format (batches s) +:+ ".h5".

(** ** Sample objects used to exercise the embedding *)

Definition fuel : Material := {| material_id := 1; material_name := "fuel" |}.
Definition water : Material := {| material_id := 2; material_name := "water" |}.
Definition flux : Tally := {| tally_id := 1; tally_name := "flux" |}.
Definition slice : Plot := {| plot_id := 1; plot_name := "slice" |}.

Definition slab : Geometry :=
  {| all_materials := [(1%Z, fuel); (2%Z, water)] |}.

Definition ten_batches : Settings :=
  {| batches := Some 10%Z; dagmc := false; statepoint := Some ∅ |}.

Definition statepoint_at_5 : Settings :=
  {| batches := Some 10%Z; dagmc := false;
     statepoint := Some {[ "batches" := [5%Z] ]} |}.

Definition statepoint_never : Settings :=
  {| batches := Some 10%Z; dagmc := false;
     statepoint := Some {[ "batches" := [] ]} |}.

(** A statepoint reader whose answer tells the files apart. *)
Definition k_by_name (filename : string) : UFloat :=
  {| nominal_value := (Z.of_nat (String.length filename), 1%positive);
     std_dev := (0%Z, 1%positive) |}.

(** A model built by the constructor from a geometry and settings. *)
Definition sample_model (s : Settings) : ModelView :=
  {| mv_geometry := slab; mv_materials := 0; mv_settings := s;
     mv_tallies := 1; mv_cmfd := None; mv_plots := 2 |}.

(** ** Derived descriptions used in the proofs *)

(** The three collection classes. *)
Inductive Kind := KMaterials | KTallies | KPlots.

Definition coll (k : Kind) (l : loc) : pyval :=
  match k with
  | KMaterials => PMaterials l
  | KTallies => PTallies l
  | KPlots => PPlots l
  end.

Definition item_class (k : Kind) : pyclass :=
  match k with
  | KMaterials => ClsMaterial
  | KTallies => ClsTally
  | KPlots => ClsPlot
  end.

Definition coll_class (k : Kind) : pyclass :=
  match k with
  | KMaterials => ClsMaterials
  | KTallies => ClsTallies
  | KPlots => ClsPlots
  end.

(** The common shape of the three collection setters; each of them is an
    instance of it (lemmas [materials_setter_shape], [tallies_setter_shape]
    and [plots_setter_shape]). *)
Definition collection_setter (name attr : string)
    (field : ModelObj → option pyval) (update : pyval → ModelObj → ModelObj)
    (k : Kind) (value : pyval) : M unit :=
  check_type name value [ClsIterable] (Some (item_class k)) ;;
  if isinstance value [coll_class k] then
    setattr update value
  else
    (cur ← getattr field attr; py_del_all cur) ;;
    items ← py_iter value;
    for_ items (λ item, cur ← getattr field attr; py_append cur item).

(** The state is that of a constructed model. *)
Definition is_model_state (st : State) : Prop :=
  ∃ mv, self st = obj_of mv.

(** The export of materials.xml a call of [export_to_xml] makes on the model
    [mv] in the world [st]. *)
Definition materials_export (mv : ModelView) (st : State) : Event :=
  let ms := heap_materials st !!! mv_materials mv in
  if is_nil ms then
    ExportToXml (PMaterials (next_loc st))
                (XMaterials (snd <$> all_materials (mv_geometry mv)))
  else ExportToXml (PMaterials (mv_materials mv)) (XMaterials ms).

(** All the calls [export_to_xml] makes, in order. *)
Definition export_events (mv : ModelView) (st : State) : list Event :=
  [ExportToXml (PSettings (mv_settings mv)) (XSettings (mv_settings mv))] ++
  (if dagmc (mv_settings mv) then []
   else [ExportToXml (PGeometry (mv_geometry mv)) (XGeometry (mv_geometry mv))]) ++
  [materials_export mv st] ++
  (let ts := heap_tallies st !!! mv_tallies mv in
   if is_nil ts then [] else [ExportToXml (PTallies (mv_tallies mv)) (XTallies ts)]) ++
  (match mv_cmfd mv with
   | Some c => [ExportToXml (PCMFD c) (XCMFD c)]
   | None => []
   end) ++
  (let ps := heap_plots st !!! mv_plots mv in
   if is_nil ps then [] else [ExportToXml (PPlots (mv_plots mv)) (XPlots ps)]).

(** The world after [export_to_xml] on the model [mv]. *)
Definition after_export (mv : ModelView) (st : State) : State :=
  let derive := is_nil (heap_materials st !!! mv_materials mv) in
  {| self := obj_of mv;
     heap_materials :=
       if derive
       then <[next_loc st := snd <$> all_materials (mv_geometry mv)]> (heap_materials st)
       else heap_materials st;
     heap_tallies := heap_tallies st;
     heap_plots := heap_plots st;
     next_loc := if derive then S (next_loc st) else next_loc st;
     trace := trace st ++ export_events mv st |}.

(** The spec's reading of [Model.run]: the solver is invoked, the statepoint
    file named after the settings' batch count is opened, and what it holds
    is returned. *)
Definition run_reads_batches_statepoint (k_combined : string → UFloat)
    (kwargs : Kwargs) (mv : ModelView) (st : State) : Prop :=
  ∃ st',
    Model.run k_combined kwargs (on_model mv st)
      = (Ok (k_combined (statepoint_name_by_batches (mv_settings mv))), st') ∧
    OpenmcRun kwargs ∈ events_since (on_model mv st) st' ∧
    StatePointOpen (statepoint_name_by_batches (mv_settings mv))
      ∈ events_since (on_model mv st) st'.

(** The file [Model.run] reads for a batch number, or [None]. *)
Definition statepoint_name (n : option Z) : string :=
  "statepoint." +:+ py_format n +:+ ".h5".

(** The world after the six default assignments that open [__init__], the
    fourth of which stores the caller's [cmfd]. *)
Definition after_defaults (cmfd : pyval) (st : State) : State :=
  {| self :=
       {| _geometry := Some (PGeometry {| all_materials := [] |});
          _materials := Some (PMaterials (next_loc st));
          _settings :=
            Some (PSettings {| batches := None; dagmc := false;
                               statepoint := Some ∅ |});
          _tallies := Some (PTallies (S (next_loc st)));
          _cmfd := Some cmfd;
          _plots := Some (PPlots (S (S (next_loc st)))) |};
     heap_materials := <[next_loc st := []]> (heap_materials st);
     heap_tallies := <[S (next_loc st) := []]> (heap_tallies st);
     heap_plots := <[S (S (next_loc st)) := []]> (heap_plots st);
     next_loc := S (S (S (next_loc st)));
     trace := trace st |}.

(** The five conditional assignments that close [__init__]. *)
Definition init_overrides (geometry materials settings tallies plots : pyval)
    : M unit :=
  (if negb (is_None geometry) then Model.geometry_setter geometry else mret tt) ;;
  (if negb (is_None materials) then Model.materials_setter materials else mret tt) ;;
  (if negb (is_None settings) then Model.settings_setter settings else mret tt) ;;
  (if negb (is_None tallies) then Model.tallies_setter tallies else mret tt) ;;
  (if negb (is_None plots) then Model.plots_setter plots else mret tt).

(** The batch number [Model.run] looks a statepoint up for: the outer
    [None] says that the lookup of the last listed batch fails. *)
Definition batch_read (s : Settings) : option (option Z) :=
  match statepoint s with
  | Some sp =>
      match sp !! "batches" with
      | Some bs => Some <$> last bs
      | None => Some (batches s)
      end
  | None => Some (batches s)
  end.

(** The world the constructor leaves behind when started in [empty_state]:
    three empty collections, nothing called yet. *)
Definition sample_world : State :=
  {| self := blank;
     heap_materials := {[ 0 := [] ]};
     heap_tallies := {[ 1 := [] ]};
     heap_plots := {[ 2 := [] ]};
     next_loc := 3;
     trace := [] |}.

(** The same world once a tally has been added to the model. *)
Definition tallied_world : State :=
  with_heap_tallies {[ 1 := [flux] ]} sample_world.

(** A world in which all three collections of the model are filled. *)
Definition full_world : State :=
  with_heap_materials {[ 0 := [fuel] ]}
    (with_heap_plots {[ 2 := [slice] ]} tallied_world).

(** A model with every sub-object supplied, run through DAGMC. *)
Definition full_model : ModelView :=
  {| mv_geometry := slab; mv_materials := 0;
     mv_settings := {| batches := Some 10%Z; dagmc := true;
                       statepoint := None |};
     mv_tallies := 1; mv_cmfd := Some {| cmfd_begin := 1 |};
     mv_plots := 2 |}.

(** ** Vocabulary for the properties of the class beyond the claims *)

(** [model.<p>] *)
Definition getter (p : Property) : M pyval :=
  match p with
  | P_geometry => Model.geometry
  | P_materials => Model.materials
  | P_settings => Model.settings
  | P_tallies => Model.tallies
  | P_cmfd => Model.cmfd
  | P_plots => Model.plots
  end.

(** The attribute behind each property. *)
Definition field_of (p : Property) : ModelObj → option pyval :=
  match p with
  | P_geometry => _geometry
  | P_materials => _materials
  | P_settings => _settings
  | P_tallies => _tallies
  | P_cmfd => _cmfd
  | P_plots => _plots
  end.

(** The values a setter stores as they are: an object of the property's own
    class (for cmfd also [None]). *)
Definition stored_as_is (p : Property) (v : pyval) : bool :=
  match p with
  | P_geometry => instance_of v ClsGeometry
  | P_materials => instance_of v ClsMaterials
  | P_settings => instance_of v ClsSettings
  | P_tallies => instance_of v ClsTallies
  | P_cmfd => instance_of v ClsCMFD || is_None v
  | P_plots => instance_of v ClsPlots
  end.

(** The property that holds the collection of each class, and the
    collection a model stores for it. *)
Definition kind_property (k : Kind) : Property :=
  match k with
  | KMaterials => P_materials
  | KTallies => P_tallies
  | KPlots => P_plots
  end.


(** What the collection of class [k] at [l] holds. *)
Definition coll_items (k : Kind) (l : loc) (st : State) : list pyval :=
  match k with
  | KMaterials => PMaterial <$> heap_materials st !!! l
  | KTallies => PTally <$> heap_tallies st !!! l
  | KPlots => PPlot <$> heap_plots st !!! l
  end.

(** Two worlds differ at most in what the collection of class [k] at [l]
    holds. *)
Definition same_except (k : Kind) (l : loc) (st st' : State) : Prop :=
  self st' = self st ∧ trace st' = trace st ∧ next_loc st' = next_loc st ∧
  ∀ k' l', (k', l') ≠ (k, l) → coll_items k' l' st' = coll_items k' l' st.

(** Two worlds hold the same collections. *)
Definition same_collections (st st' : State) : Prop :=
  ∀ k l, coll_items k l st' = coll_items k l st.

(** An argument that may be left out. *)
Definition optional {A} (inj : A → pyval) (o : option A) : pyval :=
  from_option inj PNone o.

(** A sequence handed in by the caller. *)
Definition tuple_of {A} (inj : A → pyval) (xs : list A) : pyval :=
  PTuple (inj <$> xs).

(** [Settings()] *)
Definition default_settings : Settings :=
  {| batches := None; dagmc := false; statepoint := Some ∅ |}.

(** The states a model goes through: built by the constructor, then used
    through its setters and methods, whether they return or raise. *)
Inductive reachable : State → Prop :=
| reach_init geometry materials settings tallies cmfd plots st st' :
    Model.__init__ geometry materials settings tallies cmfd plots st = (Ok tt, st') →
    reachable st'
| reach_assign p v st r st' :
    reachable st → assign p v st = (r, st') → reachable st'
| reach_export st r st' :
    reachable st → Model.export_to_xml st = (r, st') → reachable st'
| reach_run k_combined kwargs st r st' :
    reachable st → Model.run k_combined kwargs st = (r, st') → reachable st'
| reach_deplete timesteps power chain_file method kwargs st r st' :
    reachable st →
    Model.deplete timesteps power chain_file method kwargs st = (r, st') →
    reachable st'.

(** The documents among some events, in the order they were written. *)
Definition documents (evs : list Event) : list XmlDoc :=
  omap (λ e, match e with ExportToXml _ d => Some d | _ => None end) evs.


(** [model.<p>.append(item)], as the regression test adds its tallies
    (tests/regression_tests/mg_tallies/test.py, line 82). *)
Definition append_via_getter (p : Property) (item : pyval) : M unit :=
  c ← getter p; py_append c item.

(** ** The regression test that uses the model
    (tests/regression_tests/mg_tallies/test.py) *)

Module MgTalliesTest.

(** *** MGXSTestHarness._cleanup (test.py, lines 41-46)

    The working directory is the set of the names of its files. *)



Section Cleanup.

(** [HashedPyAPITestHarness._cleanup] (tests/testing_harness.py) is not among
    the sources: it is taken as a parameter, any function on the directory
    that returns. *)
Variable super_cleanup : gset string → gset string.


End Cleanup.

(** *** test_mg_tallies (test.py, lines 49-131): the tallies it adds *)

Section Tallies.

(** The filter and nuclide classes are not among the sources: the test only
    passes such objects on. *)
Context {Filter Nuclide : Type}.

(** What the test sets on an [openmc.Tally()]. *)
Record TallySetup := {
  filters : list Filter;
  estimator : option string;
  scores : list string;
  nuclides : list Nuclide
}.

(** [openmc.Tally()] *)
Definition Tally_new : TallySetup :=
  {| filters := []; estimator := None; scores := []; nuclides := [] |}.

Definition set_filters (fs : list Filter) (t : TallySetup) : TallySetup :=
  {| filters := fs; estimator := estimator t; scores := scores t;
     nuclides := nuclides t |}.

Definition set_estimator (e : string) (t : TallySetup) : TallySetup :=
  {| filters := filters t; estimator := Some e; scores := scores t;
     nuclides := nuclides t |}.

Definition set_scores (ss : list string) (t : TallySetup) : TallySetup :=
  {| filters := filters t; estimator := estimator t; scores := ss;
     nuclides := nuclides t |}.

Definition set_nuclides (ns : list Nuclide) (t : TallySetup) : TallySetup :=
  {| filters := filters t; estimator := estimator t; scores := scores t;
     nuclides := ns |}.

(** The filters instantiated at lines 61-68, and [model.xs_data]. *)
Variables mesh_filter energy_filter energyout_filter : Filter.
Variables matching_energy_filter matching_eout_filter mat_filter : Filter.
Variable xs_data : list Nuclide.

(** [scores[do_nuclides]] (lines 72-73) *)
Definition scores_of (do_nuclides : bool) : list string :=
  if do_nuclides
  then ["total"; "absorption"; "fission"; "nu-fission"]
  else ["total"; "absorption"; "flux"; "fission"; "nu-fission"].

(** [if do_nuclides: t.nuclides = nuclides] *)
Definition maybe_nuclides (do_nuclides : bool) (t : TallySetup) : TallySetup :=
  if do_nuclides then set_nuclides xs_data t else t.

(** The body of the inner loop (lines 95-131), on the list behind
    [model.tallies]. *)
Definition energy_pass (do_nuclides match_energy_bins : bool)
    (tallies : list TallySetup) : list TallySetup :=
  let e_filter :=
    if match_energy_bins then matching_energy_filter else energy_filter in
  let eout_filter :=
    if match_energy_bins then matching_eout_filter else energyout_filter in
  let t := Tally_new in
  let t := set_filters [mat_filter; e_filter] t in
  let t := set_estimator "analog" t in
  let t := set_scores (scores_of do_nuclides ++ ["scatter"; "nu-scatter"]) t in
  let t := maybe_nuclides do_nuclides t in
  let tallies := tallies ++ [t] in
  let t := Tally_new in
  let t := set_filters [mat_filter; e_filter] t in
  let t := set_estimator "collision" t in
  let t := set_scores (scores_of do_nuclides) t in
  let t := maybe_nuclides do_nuclides t in
  let tallies := tallies ++ [t] in
  let t := Tally_new in
  let t := set_filters [mat_filter; e_filter] t in
  let t := set_estimator "tracklength" t in
  let t := set_scores (scores_of do_nuclides) t in
  let t := maybe_nuclides do_nuclides t in
  let tallies := tallies ++ [t] in
  let t := Tally_new in
  let t := set_filters [mat_filter; e_filter; eout_filter] t in
  let t := set_scores ["scatter"; "nu-scatter"; "nu-fission"] t in
  let t := maybe_nuclides do_nuclides t in
  tallies ++ [t].

(** The body of the outer loop (lines 76-131). *)
Definition nuclide_pass (do_nuclides : bool)
    (tallies : list TallySetup) : list TallySetup :=
  let t := Tally_new in
  let t := set_filters [mesh_filter] t in
  let t := set_estimator "analog" t in
  let t := set_scores (scores_of do_nuclides) t in
  let t := maybe_nuclides do_nuclides t in
  let tallies := tallies ++ [t] in
  let t := Tally_new in
  let t := set_filters [mesh_filter] t in
  let t := set_estimator "tracklength" t in
  let t := set_scores (scores_of do_nuclides) t in
  let t := maybe_nuclides do_nuclides t in
  let tallies := tallies ++ [t] in
  foldl (λ tallies match_energy_bins,
           energy_pass do_nuclides match_energy_bins tallies)
        tallies [false; true].

(** A tally as the pass with nuclides sets it up: the nuclides are set and
    the flux score is not asked for. *)
Definition for_nuclides (t : TallySetup) : TallySetup :=
  {| filters := filters t; estimator := estimator t;
     scores := filter (λ s, s ≠ "flux") (scores t);
     nuclides := xs_data |}.

(** [model.tallies] once the loops of [test_mg_tallies] have run, from the
    tallies the model came with. *)
Definition test_mg_tallies_tallies (tallies : list TallySetup) : list TallySetup :=
  foldl (λ tallies do_nuclides, nuclide_pass do_nuclides tallies)
        tallies [false; true].

End Tallies.

End MgTalliesTest.

(** * Proofs *)

(** ** The monad *)

Lemma bind_ok {A B} (m : M A) (f : A → M B) st a st' :
  m st = (Ok a, st') → (m ≫= f) st = f a st'.
Proof. intros H. unfold mbind, M_bind. by rewrite H. Qed.

Lemma bind_raise {A B} (m : M A) (f : A → M B) st e st' :
  m st = (Raise e, st') → (m ≫= f) st = (Raise e, st').
Proof. intros H. unfold mbind, M_bind. by rewrite H. Qed.

(** Runs a monadic program on a state given by its fields, leaving the
    store lookups and the trace append untouched. *)
Ltac msimpl :=
  lazy beta iota zeta delta
    [mbind M_bind mret M_ret get_state modify raise
     emit getattr setattr fresh Materials_new Tallies_new Plots_new
     Geometry_new Settings_new openmc_run Operator_new integrator_call
     on_model self trace heap_materials heap_tallies heap_plots next_loc
     with_self with_trace with_heap_materials with_heap_tallies
     with_heap_plots with_next_loc obj_of
     _geometry _materials _settings _tallies _cmfd _plots
     set__geometry set__materials set__settings set__tallies set__cmfd
     set__plots
     py_bool call_export_to_xml call_get_all_materials_values
     getattr_dagmc getattr_batches getattr_statepoint
     negb is_None cmfd_value is_nil
     mv_geometry mv_materials mv_settings mv_tallies mv_cmfd mv_plots
     dagmc batches statepoint].

Lemma on_model_self mv st : self st = obj_of mv → on_model mv st = st.
Proof. destruct st. unfold on_model, with_self. simpl. by intros ->. Qed.

(** Every state of a constructed model is the world seen by a call on it. *)
Lemma model_state_on_model st :
  is_model_state st → ∃ mv, st = on_model mv st.
Proof. intros [mv H]. exists mv. by rewrite on_model_self. Qed.

Lemma getattr_some field name st v :
  field (self st) = Some v → getattr field name st = (Ok v, st).
Proof.
  intros H. unfold getattr, mbind, M_bind, get_state. cbv beta iota.
  by rewrite H.
Qed.

(** ** Type checks *)

Lemma isinstance_one v c : isinstance v [c] = instance_of v c.
Proof. unfold isinstance. cbn [existsb]. by rewrite orb_false_r. Qed.

Lemma for_check_items name c items st :
  for_ items (λ item,
      if negb (isinstance item [c]) then raise (TypeError name) else mret tt) st
  = if forallb (λ item, instance_of item c) items
    then (Ok tt, st) else (Raise (TypeError name), st).
Proof.
  induction items as [|x xs IH]; [done|].
  cbn [for_ forallb]. rewrite isinstance_one.
  destruct (instance_of x c); cbn [negb andb].
  - rewrite (bind_ok _ _ st tt st); [apply IH | done].
  - by apply bind_raise.
Qed.

Lemma check_type_iterable name c v st :
  check_type name v [ClsIterable] (Some c) st
  = if iterable_of c v st then (Ok tt, st) else (Raise (TypeError name), st).
Proof.
  unfold check_type, iterable_of.
  destruct v; try done; cbn [isinstance existsb instance_of orb negb py_iter];
    msimpl; apply for_check_items.
Qed.

Lemma check_type_plain name cls v st :
  check_type name v cls None st
  = if isinstance v cls then (Ok tt, st) else (Raise (TypeError name), st).
Proof. unfold check_type. by destruct (isinstance v cls). Qed.

Lemma isinstance_cmfd_or_none v :
  isinstance v [ClsCMFD; ClsNoneType] = instance_of v ClsCMFD || is_None v.
Proof. unfold isinstance. cbn [existsb]. rewrite orb_false_r. by destruct v. Qed.

(** ** The collection setters share one shape *)

Lemma materials_setter_shape v :
  Model.materials_setter v
  = collection_setter "materials" "_materials" _materials set__materials KMaterials v.
Proof. reflexivity. Qed.

Lemma tallies_setter_shape v :
  Model.tallies_setter v
  = collection_setter "tallies" "_tallies" _tallies set__tallies KTallies v.
Proof. reflexivity. Qed.

Lemma plots_setter_shape v :
  Model.plots_setter v
  = collection_setter "plots" "_plots" _plots set__plots KPlots v.
Proof. reflexivity. Qed.

Lemma collection_setter_raises name attr field update k v st :
  iterable_of (item_class k) v st = false →
  collection_setter name attr field update k v st = (Raise (TypeError name), st).
Proof.
  intros H. unfold collection_setter. apply bind_raise.
  rewrite check_type_iterable. by rewrite H.
Qed.

Lemma isinstance_coll k v :
  isinstance v [coll_class k] = true → ∃ l, v = coll k l.
Proof.
  rewrite isinstance_one.
  destruct k, v; cbn; try discriminate; intros _; by eexists.
Qed.

Lemma collection_setter_stores name attr field update k v st :
  iterable_of (item_class k) v st = true →
  isinstance v [coll_class k] = true →
  collection_setter name attr field update k v st
  = (Ok tt, with_self (update v (self st)) st).
Proof.
  intros Hit Hin. unfold collection_setter.
  erewrite bind_ok; [|rewrite check_type_iterable; by rewrite Hit].
  by rewrite Hin.
Qed.

Lemma iterable_of_coll k l st : iterable_of (item_class k) (coll k l) st = true.
Proof.
  unfold iterable_of. destruct k; cbn [coll py_iter item_class]; msimpl.
  - induction (heap_materials st !!! l); by cbn.
  - induction (heap_tallies st !!! l); by cbn.
  - induction (heap_plots st !!! l); by cbn.
Qed.

(** Appending an item of the right class to a collection succeeds and
    touches neither [self] nor the trace. *)
Lemma py_append_ok k l item st :
  instance_of item (item_class k) = true →
  ∃ st', py_append (coll k l) item st = (Ok tt, st') ∧
         self st' = self st ∧ trace st' = trace st.
Proof.
  destruct k, item; cbn; try discriminate; intros _;
    eexists; (split; [reflexivity|by split]).
Qed.

Lemma for_append_ok attr field k l items :
  ∀ st, field (self st) = Some (coll k l) →
    forallb (λ item, instance_of item (item_class k)) items = true →
    ∃ st', for_ items (λ item, cur ← getattr field attr; py_append cur item) st
             = (Ok tt, st') ∧
           self st' = self st ∧ trace st' = trace st.
Proof.
  induction items as [|x xs IH]; intros st Hf Hall.
  - exists st. by cbn.
  - cbn [forallb] in Hall. apply andb_prop in Hall as [Hx Hxs].
    destruct (py_append_ok k l x st Hx) as (st1 & Happ & Hs1 & Ht1).
    destruct (IH st1) as (st2 & Hfor & Hs2 & Ht2); [by rewrite Hs1 | done |].
    exists st2. split; [|split; congruence].
    cbn [for_]. erewrite bind_ok; [exact Hfor|].
    erewrite bind_ok; [exact Happ|]. by apply getattr_some.
Qed.

(** Clearing the stored collection does not disturb what a value of another
    class yields. *)
Lemma del_then_iter k l v st :
  isinstance v [coll_class k] = false →
  iterable_of (item_class k) v st = true →
  ∃ st1 items,
    py_del_all (coll k l) st = (Ok tt, st1) ∧
    self st1 = self st ∧ trace st1 = trace st ∧
    py_iter v st1 = (Ok items, st1) ∧
    forallb (λ item, instance_of item (item_class k)) items = true.
Proof.
  rewrite isinstance_one. unfold iterable_of.
  destruct k, v; cbn; try discriminate; intros _ Hall;
    eexists _, _; (repeat split; [reflexivity..|exact Hall]).
Qed.

Lemma collection_setter_refills name attr field update k l v st :
  field (self st) = Some (coll k l) →
  iterable_of (item_class k) v st = true →
  isinstance v [coll_class k] = false →
  ∃ st', collection_setter name attr field update k v st = (Ok tt, st') ∧
         self st' = self st ∧ trace st' = trace st.
Proof.
  intros Hf Hit Hin. unfold collection_setter.
  destruct (del_then_iter k l v st Hin Hit) as (st1 & items & Hdel & Hs1 & Ht1 & Hiter & Hall).
  destruct (for_append_ok attr field k l items st1) as (st2 & Hfor & Hs2 & Ht2);
    [by rewrite Hs1 | done |].
  exists st2. split; [|split; congruence].
  erewrite bind_ok; [|rewrite check_type_iterable; by rewrite Hit].
  rewrite Hin.
  erewrite bind_ok; [|erewrite bind_ok; [exact Hdel|]; by apply getattr_some].
  erewrite bind_ok; [exact Hfor | exact Hiter].
Qed.

Lemma plain_setter name cls update v st :
  (check_type name v cls None ;; setattr update v) st
  = if isinstance v cls then (Ok tt, with_self (update v (self st)) st)
    else (Raise (TypeError name), st).
Proof.
  destruct (isinstance v cls) eqn:H.
  - erewrite bind_ok; [|rewrite check_type_plain; by rewrite H]. done.
  - apply bind_raise. rewrite check_type_plain. by rewrite H.
Qed.

(** ** Assignments *)

Lemma assign_wrong_type p v st :
  right_type p v st = false →
  ∃ name, assign p v st = (Raise (TypeError name), st).
Proof.
  intros H. destruct p; cbn [right_type assign] in *.
  - exists "geometry". unfold Model.geometry_setter.
    rewrite plain_setter, isinstance_one. by rewrite H.
  - exists "materials". rewrite materials_setter_shape.
    by apply collection_setter_raises.
  - exists "settings". unfold Model.settings_setter.
    rewrite plain_setter, isinstance_one. by rewrite H.
  - exists "tallies". rewrite tallies_setter_shape.
    by apply collection_setter_raises.
  - exists "cmfd". unfold Model.cmfd_setter.
    rewrite plain_setter, isinstance_cmfd_or_none. by rewrite H.
  - exists "plots". rewrite plots_setter_shape.
    by apply collection_setter_raises.
Qed.

Lemma collection_setter_cases name attr field update k l v st :
  field (self st) = Some (coll k l) →
  (collection_setter name attr field update k v st = (Raise (TypeError name), st)) ∨
  (∃ l', v = coll k l' ∧
     collection_setter name attr field update k v st
     = (Ok tt, with_self (update v (self st)) st)) ∨
  (∃ st', collection_setter name attr field update k v st = (Ok tt, st') ∧
          self st' = self st ∧ trace st' = trace st).
Proof.
  intros Hf.
  destruct (iterable_of (item_class k) v st) eqn:Hit.
  - destruct (isinstance v [coll_class k]) eqn:Hin.
    + right. left. destruct (isinstance_coll k v Hin) as [l' ->].
      exists l'. split; [done|]. by apply collection_setter_stores.
    + right. right. by eapply collection_setter_refills.
  - left. by apply collection_setter_raises.
Qed.

Lemma assign_raise_unchanged p mv st v e st' :
  assign p v (on_model mv st) = (Raise e, st') → st' = on_model mv st.
Proof.
  destruct p; cbn [assign].
  - unfold Model.geometry_setter. rewrite plain_setter.
    destruct (isinstance v _); by intros [= ].
  - rewrite materials_setter_shape.
    destruct (collection_setter_cases "materials" "_materials" _materials
                set__materials KMaterials (mv_materials mv) v (on_model mv st))
      as [H|[(l' & _ & H)|(st1 & H & _)]]; [done|..]; rewrite H; by intros [= ].
  - unfold Model.settings_setter. rewrite plain_setter.
    destruct (isinstance v _); by intros [= ].
  - rewrite tallies_setter_shape.
    destruct (collection_setter_cases "tallies" "_tallies" _tallies
                set__tallies KTallies (mv_tallies mv) v (on_model mv st))
      as [H|[(l' & _ & H)|(st1 & H & _)]]; [done|..]; rewrite H; by intros [= ].
  - unfold Model.cmfd_setter. rewrite plain_setter.
    destruct (isinstance v _); by intros [= ].
  - rewrite plots_setter_shape.
    destruct (collection_setter_cases "plots" "_plots" _plots
                set__plots KPlots (mv_plots mv) v (on_model mv st))
      as [H|[(l' & _ & H)|(st1 & H & _)]]; [done|..]; rewrite H; by intros [= ].
Qed.

(** ** The class invariant *)

Lemma assign_keeps_model p v st st' :
  is_model_state st → assign p v st = (Ok tt, st') → is_model_state st'.
Proof.
  intros [mv Hs]. destruct p; cbn [assign].
  - unfold Model.geometry_setter. rewrite plain_setter, isinstance_one.
    destruct v; cbn [instance_of]; intros [= <-].
    exists {| mv_geometry := g; mv_materials := mv_materials mv;
              mv_settings := mv_settings mv; mv_tallies := mv_tallies mv;
              mv_cmfd := mv_cmfd mv; mv_plots := mv_plots mv |}.
    cbn. by rewrite Hs.
  - rewrite materials_setter_shape.
    destruct (collection_setter_cases "materials" "_materials" _materials
                set__materials KMaterials (mv_materials mv) v st)
      as [H|[(l' & -> & H)|(st1 & H & Hself & _)]];
      [by rewrite Hs | ..]; rewrite H; intros [= <-].
    + exists {| mv_geometry := mv_geometry mv; mv_materials := l';
                mv_settings := mv_settings mv; mv_tallies := mv_tallies mv;
                mv_cmfd := mv_cmfd mv; mv_plots := mv_plots mv |}.
      cbn. by rewrite Hs.
    + exists mv. congruence.
  - unfold Model.settings_setter. rewrite plain_setter, isinstance_one.
    destruct v; cbn [instance_of]; intros [= <-].
    exists {| mv_geometry := mv_geometry mv; mv_materials := mv_materials mv;
              mv_settings := s; mv_tallies := mv_tallies mv;
              mv_cmfd := mv_cmfd mv; mv_plots := mv_plots mv |}.
    cbn. by rewrite Hs.
  - rewrite tallies_setter_shape.
    destruct (collection_setter_cases "tallies" "_tallies" _tallies
                set__tallies KTallies (mv_tallies mv) v st)
      as [H|[(l' & -> & H)|(st1 & H & Hself & _)]];
      [by rewrite Hs | ..]; rewrite H; intros [= <-].
    + exists {| mv_geometry := mv_geometry mv; mv_materials := mv_materials mv;
                mv_settings := mv_settings mv; mv_tallies := l';
                mv_cmfd := mv_cmfd mv; mv_plots := mv_plots mv |}.
      cbn. by rewrite Hs.
    + exists mv. congruence.
  - unfold Model.cmfd_setter. rewrite plain_setter, isinstance_cmfd_or_none.
    destruct v; cbn [instance_of is_None orb]; intros [= <-].
    + exists {| mv_geometry := mv_geometry mv; mv_materials := mv_materials mv;
                mv_settings := mv_settings mv; mv_tallies := mv_tallies mv;
                mv_cmfd := None; mv_plots := mv_plots mv |}.
      cbn. by rewrite Hs.
    + exists {| mv_geometry := mv_geometry mv; mv_materials := mv_materials mv;
                mv_settings := mv_settings mv; mv_tallies := mv_tallies mv;
                mv_cmfd := Some c; mv_plots := mv_plots mv |}.
      cbn. by rewrite Hs.
  - rewrite plots_setter_shape.
    destruct (collection_setter_cases "plots" "_plots" _plots
                set__plots KPlots (mv_plots mv) v st)
      as [H|[(l' & -> & H)|(st1 & H & Hself & _)]];
      [by rewrite Hs | ..]; rewrite H; intros [= <-].
    + exists {| mv_geometry := mv_geometry mv; mv_materials := mv_materials mv;
                mv_settings := mv_settings mv; mv_tallies := mv_tallies mv;
                mv_cmfd := mv_cmfd mv; mv_plots := l' |}.
      cbn. by rewrite Hs.
    + exists mv. congruence.
Qed.

(** ** The constructor *)

Lemma init_split geometry materials settings tallies cmfd plots st :
  isinstance cmfd [ClsCMFD; ClsNoneType] = true →
  Model.__init__ geometry materials settings tallies cmfd plots st
  = init_overrides geometry materials settings tallies plots
      (after_defaults cmfd st).
Proof.
  intros Hc. unfold Model.__init__, init_overrides, after_defaults.
  destruct st as [o hm ht hp nl tr].
  erewrite bind_ok; [|reflexivity].
  erewrite bind_ok;
    [|erewrite bind_ok; [|reflexivity];
      rewrite materials_setter_shape;
      apply (collection_setter_stores _ _ _ _ KMaterials);
      [apply (iterable_of_coll KMaterials) | reflexivity]].
  erewrite bind_ok; [|reflexivity].
  erewrite bind_ok;
    [|unfold Model.cmfd_setter; rewrite plain_setter; by rewrite Hc].
  erewrite bind_ok;
    [|erewrite bind_ok; [|reflexivity];
      rewrite tallies_setter_shape;
      apply (collection_setter_stores _ _ _ _ KTallies);
      [apply (iterable_of_coll KTallies) | reflexivity]].
  erewrite bind_ok;
    [|erewrite bind_ok; [|reflexivity];
      rewrite plots_setter_shape;
      apply (collection_setter_stores _ _ _ _ KPlots);
      [apply (iterable_of_coll KPlots) | reflexivity]].
  reflexivity.
Qed.

Lemma bind_inv_ok {A B} (m : M A) (f : A → M B) st b st' :
  (m ≫= f) st = (Ok b, st') →
  ∃ a st1, m st = (Ok a, st1) ∧ f a st1 = (Ok b, st').
Proof.
  unfold mbind, M_bind. destruct (m st) as [[a|e] st1]; intros H.
  - by exists a, st1.
  - discriminate.
Qed.

Lemma init_wrong_cmfd geometry materials settings tallies cmfd plots st :
  isinstance cmfd [ClsCMFD; ClsNoneType] = false →
  ∃ st', Model.__init__ geometry materials settings tallies cmfd plots st
         = (Raise (TypeError "cmfd"), st').
Proof.
  intros Hc. unfold Model.__init__.
  destruct st as [o hm ht hp nl tr]. eexists.
  erewrite bind_ok; [|reflexivity].
  erewrite bind_ok;
    [|erewrite bind_ok; [|reflexivity];
      rewrite materials_setter_shape;
      apply (collection_setter_stores _ _ _ _ KMaterials);
      [apply (iterable_of_coll KMaterials) | reflexivity]].
  erewrite bind_ok; [|reflexivity].
  apply bind_raise.
  unfold Model.cmfd_setter. rewrite plain_setter. by rewrite Hc.
Qed.

Lemma override_keeps_model p v st st' :
  is_model_state st →
  (if negb (is_None v) then assign p v else mret tt) st = (Ok tt, st') →
  is_model_state st'.
Proof.
  intros Hm. destruct (negb (is_None v)).
  - by apply assign_keeps_model.
  - by intros [= <-].
Qed.

Lemma after_defaults_is_model cmfd st :
  isinstance cmfd [ClsCMFD; ClsNoneType] = true →
  is_model_state (after_defaults cmfd st).
Proof.
  rewrite isinstance_cmfd_or_none.
  destruct cmfd; cbn [instance_of is_None orb]; try discriminate; intros _.
  - by exists {| mv_geometry := {| all_materials := [] |};
                 mv_materials := next_loc st;
                 mv_settings := {| batches := None; dagmc := false;
                                   statepoint := Some ∅ |};
                 mv_tallies := S (next_loc st); mv_cmfd := None;
                 mv_plots := S (S (next_loc st)) |}.
  - by exists {| mv_geometry := {| all_materials := [] |};
                 mv_materials := next_loc st;
                 mv_settings := {| batches := None; dagmc := false;
                                   statepoint := Some ∅ |};
                 mv_tallies := S (next_loc st); mv_cmfd := Some c;
                 mv_plots := S (S (next_loc st)) |}.
Qed.

(** Whatever it is handed, a constructor call that returns leaves a model
    behind. *)
Lemma init_is_model geometry materials settings tallies cmfd plots st st' :
  Model.__init__ geometry materials settings tallies cmfd plots st = (Ok tt, st') →
  is_model_state st'.
Proof.
  destruct (isinstance cmfd [ClsCMFD; ClsNoneType]) eqn:Hc.
  - rewrite init_split by done. unfold init_overrides. intros H.
    apply bind_inv_ok in H as ([] & s1 & H1 & H).
    apply bind_inv_ok in H as ([] & s2 & H2 & H).
    apply bind_inv_ok in H as ([] & s3 & H3 & H).
    apply bind_inv_ok in H as ([] & s4 & H4 & H5).
    apply (override_keeps_model P_plots plots s4); [|done].
    apply (override_keeps_model P_tallies tallies s3); [|done].
    apply (override_keeps_model P_settings settings s2); [|done].
    apply (override_keeps_model P_materials materials s1); [|done].
    apply (override_keeps_model P_geometry geometry (after_defaults cmfd st)); [|done].
    by apply after_defaults_is_model.
  - destruct (init_wrong_cmfd geometry materials settings tallies cmfd plots st Hc)
      as [st1 ->]. discriminate.
Qed.

(** ** export_to_xml *)

Lemma export_to_xml_model mv st :
  Model.export_to_xml (on_model mv st) = (Ok tt, after_export mv st).
Proof.
  unfold Model.export_to_xml, Model.settings, Model.geometry, Model.materials,
    Model.tallies, Model.cmfd, Model.plots, after_export, export_events,
    materials_export.
  destruct mv as [g lm [n d sp] lt c lp], st as [o hm ht hp nl tr].
  msimpl.
  destruct d; msimpl.
  all: destruct (hm !!! lm) eqn:Hm; msimpl;
    [rewrite lookup_total_insert_eq|]; msimpl.
  all: destruct (ht !!! lt) eqn:Ht; msimpl.
  all: destruct c; msimpl.
  all: destruct (hp !!! lp) eqn:Hp; msimpl.
  all: rewrite ?Hm, ?Ht, ?Hp, <- ?app_assoc; reflexivity.
Qed.

Lemma events_since_app st st' evs :
  trace st' = trace st ++ evs → events_since st st' = evs.
Proof. intros H. unfold events_since. rewrite H. apply drop_app_length. Qed.

Lemma events_since_export mv st :
  events_since (on_model mv st) (after_export mv st) = export_events mv st.
Proof. by apply events_since_app. Qed.

Lemma export_events_are_exports mv st :
  forallb is_export (export_events mv st) = true.
Proof.
  unfold export_events, materials_export.
  destruct (dagmc _), (is_nil (heap_materials st !!! _)),
    (is_nil (heap_tallies st !!! _)), (mv_cmfd mv),
    (is_nil (heap_plots st !!! _)); reflexivity.
Qed.

(** ** run *)

Lemma run_model k kwargs mv st :
  Model.run k kwargs (on_model mv st)
  = match batch_read (mv_settings mv) with
    | Some n =>
        (Ok (k (statepoint_name n)),
         with_trace (trace st ++ export_events mv st ++
                     [OpenmcRun kwargs;
                      StatePointOpen (statepoint_name n);
                      StatePointClose (statepoint_name n)])
                    (after_export mv st))
    | None =>
        (Raise IndexError,
         with_trace (trace st ++ export_events mv st ++ [OpenmcRun kwargs])
                    (after_export mv st))
    end.
Proof.
  unfold Model.run.
  erewrite bind_ok; [|apply export_to_xml_model].
  unfold batch_read, after_export, Model.settings, Model.read_k_combined,
    statepoint_name, py_last.
  destruct mv as [g lm [n d sp] lt c lp], st as [o hm ht hp nl tr].
  msimpl.
  destruct sp as [sp|]; [destruct (sp !! "batches") as [bs|]; [destruct (last bs)|]|];
    msimpl; cbn [fmap option_fmap option_map]; rewrite <- ?app_assoc; reflexivity.
Qed.

(** ** deplete *)

Lemma deplete_model timesteps power chain_file method kwargs mv st :
  let op := {| op_geometry := PGeometry (mv_geometry mv);
               op_settings := PSettings (mv_settings mv);
               op_chain_file := chain_file |} in
  Model.deplete timesteps power chain_file method kwargs (on_model mv st)
  = if py_eq_str method "predictor" then
      (Ok tt, with_trace (trace st ++ [OperatorInit op;
                                       IntegratorCall predictor op timesteps power kwargs])
                         (on_model mv st))
    else if py_eq_str method "cecm" then
      (Ok tt, with_trace (trace st ++ [OperatorInit op;
                                       IntegratorCall cecm op timesteps power kwargs])
                         (on_model mv st))
    else
      (Raise (ValueError "method"),
       with_trace (trace st ++ [OperatorInit op]) (on_model mv st)).
Proof.
  unfold Model.deplete, Model.geometry, Model.settings, check_value.
  destruct mv as [g lm s lt c lp], st as [o hm ht hp nl tr].
  msimpl. cbn [existsb].
  destruct (py_eq_str method "predictor") eqn:Hp;
    [|destruct (py_eq_str method "cecm") eqn:Hc];
    msimpl; rewrite <- ?app_assoc; reflexivity.
Qed.

Lemma py_eq_str_false v s : v ≠ PStr s → py_eq_str v s = false.
Proof.
  intros H. destruct v; try reflexivity. cbn.
  apply bool_decide_eq_false. congruence.
Qed.

(** ** The constructor, tried on samples *)

Example init_sample s :
  Model.__init__ (PGeometry slab) PNone (PSettings s) PNone PNone PNone empty_state
  = (Ok tt, on_model (sample_model s) sample_world).
Proof. rewrite init_split by reflexivity. reflexivity. Qed.

Example tallies_append_sample :
  Model.tallies_setter (PTuple [PTally flux])
    (on_model (sample_model ten_batches) sample_world)
  = (Ok tt, on_model (sample_model ten_batches) tallied_world).
Proof. reflexivity. Qed.

Example py_format_sample : py_format (Some 10%Z) = "10" ∧ py_format None = "None".
Proof. split; reflexivity. Qed.

(** Assigning a tuple refills the stored collection in place: the model
    keeps the same collection object. *)
Example materials_refill_sample :
  Model.materials_setter (PTuple [PMaterial fuel; PMaterial water])
    (on_model (sample_model ten_batches) sample_world)
  = (Ok tt, on_model (sample_model ten_batches)
              (with_heap_materials {[ 0 := [fuel; water] ]} sample_world)).
Proof. reflexivity. Qed.

(** An empty string passes the element-wise check and empties the stored
    collection. *)
Example tallies_cleared_by_empty_string :
  Model.tallies_setter (PStr EmptyString)
    (on_model (sample_model ten_batches) tallied_world)
  = (Ok tt, on_model (sample_model ten_batches) sample_world).
Proof. reflexivity. Qed.

(** With every sub-object supplied and DAGMC switched on, everything but the
    geometry is exported, the materials from the stored collection. *)
Example export_full_sample :
  exported_to "materials.xml"
    (trace (Model.export_to_xml (on_model full_model full_world)).2)
  = [(PMaterials 0, XMaterials [fuel])] ∧
  (λ e, match e with ExportToXml _ d => xml_path d | _ => "other" end)
    <$> trace (Model.export_to_xml (on_model full_model full_world)).2
  = ["settings.xml"; "materials.xml"; "tallies.xml"; "cmfd.xml"; "plots.xml"].
Proof. rewrite export_to_xml_model. split; vm_compute; reflexivity. Qed.

(** With ten batches and no statepoint batches listed, [run] reads
    statepoint.10.h5. *)
Example run_sample :
  (Model.run k_by_name [] (on_model (sample_model ten_batches) sample_world)).1
  = Ok (k_by_name "statepoint.10.h5").
Proof. rewrite run_model. reflexivity. Qed.

Example run_sample_trace :
  trace (Model.run k_by_name [] (on_model (sample_model ten_batches) tallied_world)).2
  = [ExportToXml (PSettings ten_batches) (XSettings ten_batches);
     ExportToXml (PGeometry slab) (XGeometry slab);
     ExportToXml (PMaterials 3) (XMaterials [fuel; water]);
     ExportToXml (PTallies 1) (XTallies [flux]);
     OpenmcRun [];
     StatePointOpen "statepoint.10.h5";
     StatePointClose "statepoint.10.h5"].
Proof. rewrite run_model. vm_compute. reflexivity. Qed.

(** * The claims *)

(** C1. Exporting a model whose materials collection is empty writes a
    materials.xml built from the values of [geometry.get_all_materials()],
    through a collection made for the occasion; when the collection is not
    empty, the stored collection itself is exported with its contents.  In
    either case exactly one materials.xml is written. *)
Theorem export_materials_source (mv : ModelView) (st : State) :
  ∃ st',
    Model.export_to_xml (on_model mv st) = (Ok tt, st') ∧
    exported_to "materials.xml" (events_since (on_model mv st) st')
    = if is_nil (heap_materials st !!! mv_materials mv)
      then [(PMaterials (next_loc st),
             XMaterials (snd <$> all_materials (mv_geometry mv)))]
      else [(PMaterials (mv_materials mv),
             XMaterials (heap_materials st !!! mv_materials mv))].
Proof.
  exists (after_export mv st). split; [apply export_to_xml_model|].
  rewrite events_since_export. unfold export_events, materials_export.
  destruct (dagmc _), (is_nil (heap_materials st !!! _)),
    (is_nil (heap_tallies st !!! _)), (mv_cmfd mv),
    (is_nil (heap_plots st !!! _)); reflexivity.
Qed.

(** C2 (amended). [Model.run] invokes the solver and then returns the
    combined k-effective read from ['statepoint.<n>.h5'], where [n] is the
    last entry of [settings.statepoint['batches']] when [settings.statepoint]
    is set and has a non-empty ['batches'] entry, and the settings' batch
    count when [settings.statepoint] is [None] or has no ['batches'] entry.
    The calls made are the exports, then the solver, then the statepoint
    file opened and closed. *)
Theorem run_returns_statepoint_k_combined
    (k_combined : string → UFloat) (kwargs : Kwargs)
    (mv : ModelView) (st : State) (n : option Z) :
  (statepoint (mv_settings mv) = None ∧ n = batches (mv_settings mv)) ∨
  (∃ sp, statepoint (mv_settings mv) = Some sp ∧ sp !! "batches" = None ∧
         n = batches (mv_settings mv)) ∨
  (∃ sp bs z, statepoint (mv_settings mv) = Some sp ∧
              sp !! "batches" = Some bs ∧ last bs = Some z ∧ n = Some z) →
  let filename := "statepoint." +:+ py_format n +:+ ".h5" in
  ∃ st' exports,
    Model.run k_combined kwargs (on_model mv st)
      = (Ok (k_combined filename), st') ∧
    events_since (on_model mv st) st'
      = exports ++ [OpenmcRun kwargs; StatePointOpen filename;
                    StatePointClose filename] ∧
    forallb is_export exports = true.
Proof.
  intros Hn filename.
  assert (batch_read (mv_settings mv) = Some n) as Hread.
  { unfold batch_read.
    destruct Hn as [[-> ->]|[(sp & -> & -> & ->)|(sp & bs & z & -> & -> & -> & ->)]];
      reflexivity. }
  eexists _, (export_events mv st).
  rewrite run_model, Hread.
  split; [reflexivity|]. split; [|apply export_events_are_exports].
  by apply events_since_app.
Qed.

(** C2, as stated, fails: with ten batches and a statepoint requested at
    batch 5, [run] reads statepoint.5.h5, not statepoint.10.h5. *)
Lemma run_statepoint_name_counterexample :
  ¬ run_reads_batches_statepoint k_by_name []
      (sample_model statepoint_at_5) sample_world.
Proof.
  intros (st' & Hrun & _ & Hopen). rewrite run_model in Hrun.
  cbn [batch_read sample_model mv_settings statepoint statepoint_at_5] in Hrun.
  rewrite lookup_singleton_eq in Hrun. cbn [last fmap option_fmap option_map] in Hrun.
  injection Hrun as _ <-.
  apply list_elem_of_In in Hopen. vm_compute in Hopen.
  repeat destruct Hopen as [Hopen|Hopen]; try discriminate. exact Hopen.
Qed.

(** C3. Assigning a value of the wrong type to any of the six properties
    raises [TypeError] (and leaves the world as it was): geometry takes a
    Geometry, settings a Settings, cmfd a CMFD or [None], and materials,
    tallies and plots an iterable whose items are all Material, Tally and
    Plot objects respectively. *)
Theorem wrong_type_assignment_raises (p : Property) (v : pyval) (st : State) :
  right_type p v st = false →
  ∃ name, assign p v st = (Raise (TypeError name), st).
Proof. apply assign_wrong_type. Qed.

(** C4. [export_to_xml] writes tallies.xml exactly when the tallies
    collection is not empty, plots.xml exactly when the plots collection is
    not empty, and cmfd.xml exactly when cmfd is not [None]. *)
Theorem export_optional_files (mv : ModelView) (st : State) :
  ∃ st',
    Model.export_to_xml (on_model mv st) = (Ok tt, st') ∧
    exported_to "tallies.xml" (events_since (on_model mv st) st')
    = (if is_nil (heap_tallies st !!! mv_tallies mv) then []
       else [(PTallies (mv_tallies mv),
              XTallies (heap_tallies st !!! mv_tallies mv))]) ∧
    exported_to "plots.xml" (events_since (on_model mv st) st')
    = (if is_nil (heap_plots st !!! mv_plots mv) then []
       else [(PPlots (mv_plots mv),
              XPlots (heap_plots st !!! mv_plots mv))]) ∧
    exported_to "cmfd.xml" (events_since (on_model mv st) st')
    = match mv_cmfd mv with
      | Some c => [(PCMFD c, XCMFD c)]
      | None => []
      end.
Proof.
  exists (after_export mv st). split; [apply export_to_xml_model|].
  rewrite events_since_export. unfold export_events, materials_export.
  destruct (dagmc _), (is_nil (heap_materials st !!! _)),
    (is_nil (heap_tallies st !!! _)), (mv_cmfd mv),
    (is_nil (heap_plots st !!! _)); repeat split; reflexivity.
Qed.

(** C5. [deplete] with a method that is neither 'cecm' nor 'predictor'
    raises the [ValueError] of the enumerated-value check, and no integrator
    is called. *)
Theorem deplete_unknown_method_raises
    (timesteps power chain_file method : pyval) (kwargs : Kwargs)
    (mv : ModelView) (st : State) :
  method ≠ PStr "cecm" → method ≠ PStr "predictor" →
  ∃ st',
    Model.deplete timesteps power chain_file method kwargs (on_model mv st)
      = (Raise (ValueError "method"), st') ∧
    existsb is_integrator_call (events_since (on_model mv st) st') = false.
Proof.
  intros Hc Hp. eexists.
  rewrite deplete_model, !py_eq_str_false by done.
  split; [reflexivity|].
  erewrite (events_since_app _ _ [_]); [|reflexivity]. reflexivity.
Qed.

(** C6, evaluated where it fails: with an empty ['batches'] entry in
    [settings.statepoint], [run] exports, invokes the solver, and then raises
    [IndexError]; no statepoint file is opened. *)
Theorem run_empty_statepoint_batches :
  ∃ st',
    Model.run k_by_name [] (on_model (sample_model statepoint_never) sample_world)
      = (Raise IndexError, st') ∧
    trace st'
      = [ExportToXml (PSettings statepoint_never) (XSettings statepoint_never);
         ExportToXml (PGeometry slab) (XGeometry slab);
         ExportToXml (PMaterials 3) (XMaterials [fuel; water]);
         OpenmcRun []] ∧
    existsb is_statepoint_open (trace st') = false.
Proof.
  eexists. rewrite run_model. vm_compute. repeat split.
Qed.

(** C7. [deplete] with method 'cecm' or 'predictor' builds one operator from
    the model's geometry, the model's settings and the chain file, and calls
    the integrator of that name once, on that operator, the timesteps, the
    power and the keyword arguments. *)
Theorem deplete_invokes_integrator
    (f : Integrator) (timesteps power chain_file method : pyval)
    (kwargs : Kwargs) (mv : ModelView) (st : State) :
  method = PStr (integrator_name f) →
  let op := {| op_geometry := PGeometry (mv_geometry mv);
               op_settings := PSettings (mv_settings mv);
               op_chain_file := chain_file |} in
  ∃ st',
    Model.deplete timesteps power chain_file method kwargs (on_model mv st)
      = (Ok tt, st') ∧
    events_since (on_model mv st) st'
      = [OperatorInit op; IntegratorCall f op timesteps power kwargs].
Proof.
  intros -> op. eexists. rewrite deplete_model.
  destruct f; cbn [integrator_name py_eq_str];
    (split; [reflexivity|]); by apply events_since_app.
Qed.

(** C8. An assignment to one of the six properties of a model that raises
    leaves the whole world, and so every stored sub-object and the contents
    of every collection, as it was. *)
Theorem failed_assignment_keeps_state
    (p : Property) (v : pyval) (mv : ModelView) (st : State)
    (e : exn) (st' : State) :
  assign p v (on_model mv st) = (Raise e, st') →
  st' = on_model mv st.
Proof. apply assign_raise_unchanged. Qed.

(** C9. [export_to_xml] always writes settings.xml, and writes geometry.xml
    if and only if [settings.dagmc] is false. *)
Theorem export_settings_and_geometry (mv : ModelView) (st : State) :
  ∃ st',
    Model.export_to_xml (on_model mv st) = (Ok tt, st') ∧
    exported_to "settings.xml" (events_since (on_model mv st) st')
    = [(PSettings (mv_settings mv), XSettings (mv_settings mv))] ∧
    exported_to "geometry.xml" (events_since (on_model mv st) st')
    = if dagmc (mv_settings mv) then []
      else [(PGeometry (mv_geometry mv), XGeometry (mv_geometry mv))].
Proof.
  exists (after_export mv st). split; [apply export_to_xml_model|].
  rewrite events_since_export. unfold export_events, materials_export.
  destruct (dagmc _), (is_nil (heap_materials st !!! _)),
    (is_nil (heap_tallies st !!! _)), (mv_cmfd mv),
    (is_nil (heap_plots st !!! _)); split; reflexivity.
Qed.

(** C10. Assigning [None] to cmfd succeeds and stores [None]; assigning
    [None] to any of the other five properties raises [TypeError]; and a model
    constructed without arguments has cmfd [None], a geometry that references
    no material, settings with nothing configured, and three newly allocated,
    empty collections. *)
Theorem only_cmfd_accepts_None (st : State) :
  heap_wf st →
  Model.cmfd_setter PNone st = (Ok tt, with_self (set__cmfd PNone (self st)) st) ∧
  (∀ p, p ≠ P_cmfd → ∃ name, assign p PNone st = (Raise (TypeError name), st)) ∧
  ∃ st' lm lt lp,
    Model.__init__ PNone PNone PNone PNone PNone PNone st = (Ok tt, st') ∧
    _cmfd (self st') = Some PNone ∧
    _geometry (self st') = Some (PGeometry {| all_materials := [] |}) ∧
    _settings (self st')
      = Some (PSettings {| batches := None; dagmc := false;
                           statepoint := Some ∅ |}) ∧
    _materials (self st') = Some (PMaterials lm) ∧
    _tallies (self st') = Some (PTallies lt) ∧
    _plots (self st') = Some (PPlots lp) ∧
    heap_materials st' !! lm = Some [] ∧ heap_materials st !! lm = None ∧
    heap_tallies st' !! lt = Some [] ∧ heap_tallies st !! lt = None ∧
    heap_plots st' !! lp = Some [] ∧ heap_plots st !! lp = None.
Proof.
  intros Hwf. split; [reflexivity|]. split.
  - intros p Hp. apply assign_wrong_type. by destruct p.
  - exists (after_defaults PNone st), (next_loc st), (S (next_loc st)),
      (S (S (next_loc st))).
    split; [by rewrite init_split|].
    cbn [after_defaults self _cmfd _geometry _settings _materials _tallies
         _plots heap_materials heap_tallies heap_plots].
    rewrite !lookup_insert_eq.
    destruct (Hwf (next_loc st)) as (Hm & _ & _); [lia|].
    destruct (Hwf (S (next_loc st))) as (_ & Ht & _); [lia|].
    destruct (Hwf (S (S (next_loc st)))) as (_ & _ & Hp); [lia|].
    done.
Qed.

(** * Witnesses *)

Lemma run_returns_statepoint_k_combined_witness :
  ((statepoint statepoint_at_5 = None ∧ Some 5%Z = batches statepoint_at_5) ∨
   (∃ sp, statepoint statepoint_at_5 = Some sp ∧ sp !! "batches" = None ∧
          Some 5%Z = batches statepoint_at_5) ∨
   (∃ sp bs z, statepoint statepoint_at_5 = Some sp ∧
               sp !! "batches" = Some bs ∧ last bs = Some z ∧ Some 5%Z = Some z)) ∧
  ∃ st' exports,
    Model.run k_by_name [] (on_model (sample_model statepoint_at_5) sample_world)
      = (Ok (k_by_name "statepoint.5.h5"), st') ∧
    events_since (on_model (sample_model statepoint_at_5) sample_world) st'
      = exports ++ [OpenmcRun []; StatePointOpen "statepoint.5.h5";
                    StatePointClose "statepoint.5.h5"] ∧
    forallb is_export exports = true.
Proof.
  assert ((statepoint statepoint_at_5 = None ∧ Some 5%Z = batches statepoint_at_5) ∨
   (∃ sp, statepoint statepoint_at_5 = Some sp ∧ sp !! "batches" = None ∧
          Some 5%Z = batches statepoint_at_5) ∨
   (∃ sp bs z, statepoint statepoint_at_5 = Some sp ∧
               sp !! "batches" = Some bs ∧ last bs = Some z ∧ Some 5%Z = Some z))
    as H.
  { right. right. exists {[ "batches" := [5%Z] ]}, [5%Z], 5%Z.
    repeat split; reflexivity. }
  split; [exact H|].
  exact (run_returns_statepoint_k_combined k_by_name []
           (sample_model statepoint_at_5) sample_world (Some 5%Z) H).
Defined.

Lemma wrong_type_assignment_raises_witness :
  right_type P_tallies (PTuple [PTally flux; PNone])
    (on_model (sample_model ten_batches) tallied_world) = false ∧
  ∃ name,
    assign P_tallies (PTuple [PTally flux; PNone])
      (on_model (sample_model ten_batches) tallied_world)
    = (Raise (TypeError name), on_model (sample_model ten_batches) tallied_world).
Proof.
  split; [reflexivity|].
  apply (wrong_type_assignment_raises P_tallies (PTuple [PTally flux; PNone])).
  reflexivity.
Defined.

Lemma deplete_unknown_method_raises_witness :
  PStr "euler" ≠ PStr "cecm" ∧ PStr "euler" ≠ PStr "predictor" ∧
  ∃ st',
    Model.deplete (PTuple [PInt 86400]) (PInt 1000) PNone (PStr "euler") []
      (on_model (sample_model ten_batches) sample_world)
      = (Raise (ValueError "method"), st') ∧
    existsb is_integrator_call
      (events_since (on_model (sample_model ten_batches) sample_world) st') = false.
Proof.
  split; [discriminate|]. split; [discriminate|].
  apply (deplete_unknown_method_raises (PTuple [PInt 86400]) (PInt 1000) PNone
           (PStr "euler") [] (sample_model ten_batches) sample_world);
    discriminate.
Defined.

Lemma deplete_invokes_integrator_witness :
  Model.deplete_default_method = PStr (integrator_name cecm) ∧
  ∃ st',
    Model.deplete (PTuple [PInt 86400]) (PInt 1000)
      Model.deplete_default_chain_file Model.deplete_default_method []
      (on_model (sample_model ten_batches) sample_world)
      = (Ok tt, st') ∧
    events_since (on_model (sample_model ten_batches) sample_world) st'
      = [OperatorInit {| op_geometry := PGeometry slab;
                         op_settings := PSettings ten_batches;
                         op_chain_file := PNone |};
         IntegratorCall cecm
           {| op_geometry := PGeometry slab;
              op_settings := PSettings ten_batches;
              op_chain_file := PNone |}
           (PTuple [PInt 86400]) (PInt 1000) []].
Proof.
  split; [reflexivity|].
  apply (deplete_invokes_integrator cecm (PTuple [PInt 86400]) (PInt 1000)
           Model.deplete_default_chain_file Model.deplete_default_method []
           (sample_model ten_batches) sample_world).
  reflexivity.
Defined.

Lemma failed_assignment_keeps_state_witness :
  assign P_tallies (PTuple [PTally flux; PNone])
    (on_model (sample_model ten_batches) tallied_world)
  = (Raise (TypeError "tallies"), on_model (sample_model ten_batches) tallied_world) ∧
  on_model (sample_model ten_batches) tallied_world
  = on_model (sample_model ten_batches) tallied_world.
Proof.
  split; [reflexivity|].
  apply (failed_assignment_keeps_state P_tallies (PTuple [PTally flux; PNone])
           (sample_model ten_batches) tallied_world (TypeError "tallies")).
  reflexivity.
Defined.

Lemma only_cmfd_accepts_None_witness :
  heap_wf empty_state ∧
  Model.cmfd_setter PNone empty_state
  = (Ok tt, with_self (set__cmfd PNone (self empty_state)) empty_state) ∧
  (∀ p, p ≠ P_cmfd →
        ∃ name, assign p PNone empty_state = (Raise (TypeError name), empty_state)) ∧
  ∃ st',
    Model.__init__ PNone PNone PNone PNone PNone PNone empty_state = (Ok tt, st') ∧
    _cmfd (self st') = Some PNone.
Proof.
  assert (heap_wf empty_state) as H.
  { intros l _. repeat split; reflexivity. }
  split; [exact H|].
  destruct (only_cmfd_accepts_None empty_state H)
    as (Hcmfd & Hothers & st' & lm & lt & lp & Hinit & Hnone & _).
  split; [exact Hcmfd|]. split; [exact Hothers|].
  exists st'. split; [exact Hinit | exact Hnone].
Defined.

(** * Properties beyond the claims *)

(** ** Collections in the store *)

Lemma same_except_refl k l st : same_except k l st st.
Proof. by repeat split. Qed.

Lemma same_except_trans k l st1 st2 st3 :
  same_except k l st1 st2 → same_except k l st2 st3 → same_except k l st1 st3.
Proof.
  intros (Hs & Ht & Hn & Hc) (Hs' & Ht' & Hn' & Hc').
  repeat split; try congruence.
  intros k' l' Hne. rewrite Hc' by done. by apply Hc.
Qed.

Lemma py_iter_coll k l st : py_iter (coll k l) st = (Ok (coll_items k l st), st).
Proof. by destruct k. Qed.

Lemma coll_inj k l k' l' : coll k l = coll k' l' → (k, l) = (k', l').
Proof. destruct k, k'; cbn; by intros [= ->]. Qed.

Lemma py_append_items k l item st :
  instance_of item (item_class k) = true →
  ∃ st', py_append (coll k l) item st = (Ok tt, st') ∧
         same_except k l st st' ∧
         coll_items k l st' = coll_items k l st ++ [item].
Proof.
  destruct k, item; cbn [instance_of item_class]; try discriminate; intros _;
    eexists; (split; [reflexivity|]); (split; [repeat split|]).
  all: cbn [coll_items heap_materials heap_tallies heap_plots
            with_heap_materials with_heap_tallies with_heap_plots].
  all: try (rewrite lookup_total_insert_eq, fmap_app; reflexivity).
  all: intros k' l' Hne; destruct k';
    cbn [coll_items heap_materials heap_tallies heap_plots
         with_heap_materials with_heap_tallies with_heap_plots];
    try reflexivity.
  all: rewrite lookup_total_insert_ne; [reflexivity|congruence].
Qed.

Lemma py_del_all_items k l st :
  ∃ st', py_del_all (coll k l) st = (Ok tt, st') ∧
         same_except k l st st' ∧ coll_items k l st' = [].
Proof.
  destruct k; eexists; (split; [reflexivity|]); (split; [repeat split|]).
  all: cbn [coll_items heap_materials heap_tallies heap_plots
            with_heap_materials with_heap_tallies with_heap_plots].
  all: try (rewrite lookup_total_insert_eq; reflexivity).
  all: intros k' l' Hne; destruct k';
    cbn [coll_items heap_materials heap_tallies heap_plots
         with_heap_materials with_heap_tallies with_heap_plots];
    try reflexivity.
  all: rewrite lookup_total_insert_ne; [reflexivity|congruence].
Qed.

Lemma for_append_items attr field k l items :
  ∀ st, field (self st) = Some (coll k l) →
    forallb (λ item, instance_of item (item_class k)) items = true →
    ∃ st', for_ items (λ item, cur ← getattr field attr; py_append cur item) st
             = (Ok tt, st') ∧
           same_except k l st st' ∧
           coll_items k l st' = coll_items k l st ++ items.
Proof.
  induction items as [|x xs IH]; intros st Hf Hall.
  - exists st. split; [done|]. split; [apply same_except_refl|].
    by rewrite app_nil_r.
  - cbn [forallb] in Hall. apply andb_prop in Hall as [Hx Hxs].
    destruct (py_append_items k l x st Hx) as (st1 & Happ & Hsame1 & Hitems1).
    destruct (IH st1) as (st2 & Hfor & Hsame2 & Hitems2);
      [by rewrite (proj1 Hsame1) | done |].
    exists st2. split; [|split].
    + cbn [for_]. erewrite bind_ok; [exact Hfor|].
      erewrite bind_ok; [exact Happ|]. by apply getattr_some.
    + by eapply same_except_trans.
    + rewrite Hitems2, Hitems1, <- app_assoc. reflexivity.
Qed.

(** What a value that is not a collection of class [k] yields does not
    depend on what the collections of class [k] hold. *)
Lemma py_iter_same_except k l v st st' :
  isinstance v [coll_class k] = false →
  same_except k l st st' →
  (py_iter v st').1 = (py_iter v st).1.
Proof.
  rewrite isinstance_one. intros Hv (_ & _ & _ & Hc).
  destruct v; try reflexivity.
  - rewrite (py_iter_coll KMaterials), (py_iter_coll KMaterials). cbn [fst].
    rewrite Hc; [done|]. destruct k; cbn in Hv; congruence.
  - rewrite (py_iter_coll KTallies), (py_iter_coll KTallies). cbn [fst].
    rewrite Hc; [done|]. destruct k; cbn in Hv; congruence.
  - rewrite (py_iter_coll KPlots), (py_iter_coll KPlots). cbn [fst].
    rewrite Hc; [done|]. destruct k; cbn in Hv; congruence.
Qed.

Lemma py_iter_keeps_state v st : (py_iter v st).2 = st.
Proof. by destruct v. Qed.

Lemma collection_setter_refill_items name attr field update k l v items st :
  field (self st) = Some (coll k l) →
  py_iter v st = (Ok items, st) →
  forallb (λ item, instance_of item (item_class k)) items = true →
  isinstance v [coll_class k] = false →
  ∃ st', collection_setter name attr field update k v st = (Ok tt, st') ∧
         same_except k l st st' ∧ coll_items k l st' = items.
Proof.
  intros Hf Hiter Hall Hin. unfold collection_setter.
  destruct (py_del_all_items k l st) as (st1 & Hdel & Hsame1 & Hempty).
  assert (py_iter v st1 = (Ok items, st1)) as Hiter1.
  { pose proof (py_iter_same_except k l v st st1 Hin Hsame1) as H1.
    pose proof (py_iter_keeps_state v st1) as H2.
    rewrite Hiter in H1. cbn [fst] in H1.
    destruct (py_iter v st1) as [r s]. cbn in *. by subst. }
  destruct (for_append_items attr field k l items st1) as (st2 & Hfor & Hsame2 & Hitems);
    [by rewrite (proj1 Hsame1) | done |].
  exists st2. split; [|split].
  - erewrite bind_ok;
      [|rewrite check_type_iterable; unfold iterable_of; rewrite Hiter; by rewrite Hall].
    rewrite Hin.
    erewrite bind_ok; [|erewrite bind_ok; [exact Hdel|]; by apply getattr_some].
    erewrite bind_ok; [exact Hfor | exact Hiter1].
  - by eapply same_except_trans.
  - by rewrite Hitems, Hempty.
Qed.

Lemma stored_as_is_coll k v :
  stored_as_is (kind_property k) v = true → ∃ l, v = coll k l.
Proof. destruct k, v; cbn; try discriminate; intros _; by eexists. Qed.

Lemma assign_stores p v st :
  stored_as_is p v = true →
  assign p v st
  = (Ok tt,
     with_self (match p with
                | P_geometry => set__geometry v (self st)
                | P_materials => set__materials v (self st)
                | P_settings => set__settings v (self st)
                | P_tallies => set__tallies v (self st)
                | P_cmfd => set__cmfd v (self st)
                | P_plots => set__plots v (self st)
                end) st).
Proof.
  intros H. destruct p; cbn [assign stored_as_is] in *.
  - unfold Model.geometry_setter. rewrite plain_setter, isinstance_one. by rewrite H.
  - rewrite materials_setter_shape.
    destruct (stored_as_is_coll KMaterials v H) as [l ->].
    apply collection_setter_stores; [apply iterable_of_coll | reflexivity].
  - unfold Model.settings_setter. rewrite plain_setter, isinstance_one. by rewrite H.
  - rewrite tallies_setter_shape.
    destruct (stored_as_is_coll KTallies v H) as [l ->].
    apply collection_setter_stores; [apply iterable_of_coll | reflexivity].
  - unfold Model.cmfd_setter. rewrite plain_setter, isinstance_cmfd_or_none. by rewrite H.
  - rewrite plots_setter_shape.
    destruct (stored_as_is_coll KPlots v H) as [l ->].
    apply collection_setter_stores; [apply iterable_of_coll | reflexivity].
Qed.

(** X1. Assigning an object of the property's own class (for cmfd also
    [None]) stores that very object: the getter then returns it, the other five
    attributes are as before, and nothing else in the world has changed. *)
Theorem assigned_object_is_stored (p : Property) (v : pyval) (st : State) :
  stored_as_is p v = true →
  ∃ st',
    assign p v st = (Ok tt, st') ∧
    getter p st' = (Ok v, st') ∧
    (∀ q, q ≠ p → field_of q (self st') = field_of q (self st)) ∧
    heap_materials st' = heap_materials st ∧
    heap_tallies st' = heap_tallies st ∧
    heap_plots st' = heap_plots st ∧
    next_loc st' = next_loc st ∧
    trace st' = trace st.
Proof.
  intros H. eexists. split; [by apply assign_stores|].
  split; [by destruct p|].
  split; [|done].
  intros q Hq. by destruct p, q.
Qed.


Lemma collection_setter_returns name attr field update k l v st :
  field (self st) = Some (coll k l) →
  iterable_of (item_class k) v st = true →
  ∃ st', collection_setter name attr field update k v st = (Ok tt, st').
Proof.
  intros Hf Hit. destruct (isinstance v [coll_class k]) eqn:Hin.
  - eexists. by apply collection_setter_stores.
  - destruct (collection_setter_refills name attr field update k l v st Hf Hit Hin)
      as (st' & H & _). by exists st'.
Qed.

Lemma assign_right_type_returns p v mv st :
  right_type p v (on_model mv st) = true →
  ∃ st', assign p v (on_model mv st) = (Ok tt, st').
Proof.
  intros Hr. destruct p; cbn [assign right_type] in *.
  - eexists. unfold Model.geometry_setter.
    rewrite plain_setter, isinstance_one. by rewrite Hr.
  - rewrite materials_setter_shape.
    by apply (collection_setter_returns _ _ _ _ KMaterials (mv_materials mv)).
  - eexists. unfold Model.settings_setter.
    rewrite plain_setter, isinstance_one. by rewrite Hr.
  - rewrite tallies_setter_shape.
    by apply (collection_setter_returns _ _ _ _ KTallies (mv_tallies mv)).
  - eexists. unfold Model.cmfd_setter.
    rewrite plain_setter, isinstance_cmfd_or_none. by rewrite Hr.
  - rewrite plots_setter_shape.
    by apply (collection_setter_returns _ _ _ _ KPlots (mv_plots mv)).
Qed.

(** X3. On a model, an assignment returns exactly when the value has the
    type the property asks for. *)
Theorem assignment_returns_iff_right_type
    (p : Property) (v : pyval) (mv : ModelView) (st : State) :
  (∃ st', assign p v (on_model mv st) = (Ok tt, st'))
  ↔ right_type p v (on_model mv st) = true.
Proof.
  split.
  - intros [st' H]. destruct (right_type p v (on_model mv st)) eqn:Hr; [done|].
    destruct (assign_wrong_type p v _ Hr) as [name Hraise]. congruence.
  - apply assign_right_type_returns.
Qed.

(** ** The states of a model *)

Lemma after_export_self mv st : self (after_export mv st) = obj_of mv.
Proof. reflexivity. Qed.

Lemma reachable_model st : reachable st → is_model_state st.
Proof.
  induction 1 as [g m s t c p st st' Hinit
                 |p v st r st' _ [mv Hs] Hassign
                 |st r st' _ [mv Hs] Hexp
                 |k kw st r st' _ [mv Hs] Hrun
                 |ts pw cf me kw st r st' _ [mv Hs] Hdep].
  - by eapply init_is_model.
  - destruct r as [[]|e].
    + eapply assign_keeps_model; [by exists mv | done].
    + rewrite <- (on_model_self mv st Hs) in Hassign.
      apply assign_raise_unchanged in Hassign. subst st'. by exists mv.
  - rewrite <- (on_model_self mv st Hs), export_to_xml_model in Hexp.
    injection Hexp as _ <-. by exists mv.
  - rewrite <- (on_model_self mv st Hs), run_model in Hrun.
    destruct (batch_read _); injection Hrun as _ <-; by exists mv.
  - rewrite <- (on_model_self mv st Hs), deplete_model in Hdep.
    destruct (py_eq_str me "predictor"); [|destruct (py_eq_str me "cecm")];
      injection Hdep as _ <-; by exists mv.
Qed.

(** X4. The class invariant: in every state a model goes through (after the
    constructor has returned, and after any sequence of assignments, exports,
    runs and depletions, returning or raising) the six attributes are set
    and hold a Geometry, a Materials collection, a Settings, a Tallies
    collection, a CMFD or [None], and a Plots collection. *)
Theorem reachable_states_are_models (st : State) :
  reachable st → ∃ mv, self st = obj_of mv.
Proof. apply reachable_model. Qed.


(** ** The constructor on supplied arguments *)

Lemma override_tuple k l (o : option (list pyval)) st :
  field_of (kind_property k) (self st) = Some (coll k l) →
  (∀ items, o = Some items →
            forallb (λ item, instance_of item (item_class k)) items = true) →
  ∃ st',
    (if negb (is_None (optional PTuple o))
     then assign (kind_property k) (optional PTuple o) else mret tt) st
    = (Ok tt, st') ∧
    same_except k l st st' ∧
    coll_items k l st' = default (coll_items k l st) o.
Proof.
  intros Hf Hall. destruct o as [items|]; cbn [optional from_option is_None negb default].
  - specialize (Hall items eq_refl).
    destruct k; cbn [kind_property assign field_of] in *.
    + by apply (collection_setter_refill_items "materials" "_materials"
                  _materials set__materials KMaterials).
    + by apply (collection_setter_refill_items "tallies" "_tallies"
                  _tallies set__tallies KTallies).
    + by apply (collection_setter_refill_items "plots" "_plots"
                  _plots set__plots KPlots).
  - exists st. split; [done|]. split; [apply same_except_refl | done].
Qed.

Lemma forallb_fmap_instances {A} (inj : A → pyval) c (xs : list A) :
  (∀ x, instance_of (inj x) c = true) →
  forallb (λ item, instance_of item c) (inj <$> xs) = true.
Proof. intros H. induction xs as [|x xs IH]; cbn; [done|]. by rewrite H, IH. Qed.

Lemma optional_tuple {A} (inj : A → pyval) (o : option (list A)) :
  optional (tuple_of inj) o = optional PTuple (fmap (M:=list) inj <$> o).
Proof. by destruct o. Qed.

Lemma override_geometry (g : option Geometry) st :
  (if negb (is_None (optional PGeometry g))
   then Model.geometry_setter (optional PGeometry g) else mret tt) st
  = (Ok tt, from_option (λ g', with_self (set__geometry (PGeometry g') (self st)) st) st g).
Proof. by destruct g. Qed.

Lemma override_settings (s : option Settings) st :
  (if negb (is_None (optional PSettings s))
   then Model.settings_setter (optional PSettings s) else mret tt) st
  = (Ok tt, from_option (λ s', with_self (set__settings (PSettings s') (self st)) st) st s).
Proof. by destruct s. Qed.

Lemma fmap_inj_items {A} (inj : A → pyval) (xs ys : list A) :
  (∀ x y, inj x = inj y → x = y) → inj <$> xs = inj <$> ys → xs = ys.
Proof.
  intros Hinj. revert ys. induction xs as [|x xs IH]; intros [|y ys] H;
    try done.
  injection H as Hx Hxs. f_equal; [by apply Hinj | by apply IH].
Qed.

(** X6. Constructed from optional arguments given as plain sequences, a model
    stores the supplied geometry, settings and cmfd (or the defaults), and
    three newly allocated collections that hold copies of the supplied
    sequences (or nothing); collections that existed before are untouched
    and no external call is made. *)
Theorem constructor_copies_sequences
    (g : option Geometry) (ms : option (list Material)) (s : option Settings)
    (ts : option (list Tally)) (c : option CMFD) (ps : option (list Plot))
    (st : State) :
  ∃ st',
    Model.__init__ (optional PGeometry g) (optional (tuple_of PMaterial) ms)
      (optional PSettings s) (optional (tuple_of PTally) ts) (cmfd_value c)
      (optional (tuple_of PPlot) ps) st
    = (Ok tt, st') ∧
    self st'
    = obj_of {| mv_geometry := default {| all_materials := [] |} g;
                mv_materials := next_loc st;
                mv_settings := default default_settings s;
                mv_tallies := S (next_loc st);
                mv_cmfd := c;
                mv_plots := S (S (next_loc st)) |} ∧
    heap_materials st' !!! next_loc st = default [] ms ∧
    heap_tallies st' !!! S (next_loc st) = default [] ts ∧
    heap_plots st' !!! S (S (next_loc st)) = default [] ps ∧
    (∀ k l, l < next_loc st → coll_items k l st' = coll_items k l st) ∧
    next_loc st' = S (S (S (next_loc st))) ∧
    trace st' = trace st.
Proof.
  rewrite init_split by (by destruct c). unfold init_overrides.
  set (st0 := after_defaults (cmfd_value c) st).
  rewrite !optional_tuple.
  (* geometry *)
  erewrite bind_ok; [|apply override_geometry].
  set (st1 := from_option _ st0 g).
  assert (self st1 = set__geometry (PGeometry (default {| all_materials := [] |} g)) (self st0)
          ∧ heap_materials st1 = heap_materials st0 ∧ heap_tallies st1 = heap_tallies st0
          ∧ heap_plots st1 = heap_plots st0 ∧ next_loc st1 = next_loc st0
          ∧ trace st1 = trace st0) as (Hs1 & Hm1 & Ht1 & Hp1 & Hn1 & Hr1).
  { subst st1. by destruct g. }
  (* materials *)
  destruct (override_tuple KMaterials (next_loc st) (fmap (M:=list) PMaterial <$> ms) st1)
    as (st2 & H2 & (Hs2 & Hr2 & Hn2 & Hc2) & Hi2).
  { by rewrite Hs1. }
  { intros items Hi. destruct ms as [ms|]; [|done]. injection Hi as <-.
    by apply forallb_fmap_instances. }
  erewrite bind_ok; [|exact H2].
  (* settings *)
  erewrite bind_ok; [|apply override_settings].
  set (st3 := from_option _ st2 s).
  assert (self st3 = set__settings (PSettings (default default_settings s)) (self st2)
          ∧ (∀ k l, coll_items k l st3 = coll_items k l st2)
          ∧ next_loc st3 = next_loc st2 ∧ trace st3 = trace st2)
    as (Hs3 & Hc3 & Hn3 & Hr3).
  { subst st3. destruct s; cbn; rewrite ?Hs2, ?Hs1; repeat split;
      by intros []. }
  (* tallies *)
  destruct (override_tuple KTallies (S (next_loc st)) (fmap (M:=list) PTally <$> ts) st3)
    as (st4 & H4 & (Hs4 & Hr4 & Hn4 & Hc4) & Hi4).
  { by rewrite Hs3, Hs2, Hs1. }
  { intros items Hi. destruct ts as [ts|]; [|done]. injection Hi as <-.
    by apply forallb_fmap_instances. }
  erewrite bind_ok; [|exact H4].
  (* plots *)
  destruct (override_tuple KPlots (S (S (next_loc st))) (fmap (M:=list) PPlot <$> ps) st4)
    as (st5 & H5 & (Hs5 & Hr5 & Hn5 & Hc5) & Hi5).
  { by rewrite Hs4, Hs3, Hs2, Hs1. }
  { intros items Hi. destruct ps as [ps|]; [|done]. injection Hi as <-.
    by apply forallb_fmap_instances. }
  exists st5. split; [exact H5|].
  assert (∀ k l, coll_items k l st1 = coll_items k l st0) as Hc1.
  { intros [] l; cbn [coll_items]; by rewrite ?Hm1, ?Ht1, ?Hp1. }
  split; [by rewrite Hs5, Hs4, Hs3, Hs2, Hs1|].
  split; [|split; [|split; [|split; [|split]]]].
  - apply (fmap_inj_items PMaterial); [by intros ?? [= ]|].
    change (coll_items KMaterials (next_loc st) st5
            = PMaterial <$> default [] ms).
    rewrite Hc5, Hc4, Hc3, Hi2, Hc1 by congruence.
    destruct ms; [done|]. cbn [default fmap option_fmap option_map coll_items].
    subst st0. cbn [after_defaults heap_materials].
    by rewrite lookup_total_insert_eq.
  - apply (fmap_inj_items PTally); [by intros ?? [= ]|].
    change (coll_items KTallies (S (next_loc st)) st5
            = PTally <$> default [] ts).
    rewrite Hc5, Hi4, Hc3, Hc2, Hc1 by congruence.
    destruct ts; [done|]. cbn [default fmap option_fmap option_map coll_items].
    subst st0. cbn [after_defaults heap_tallies].
    by rewrite lookup_total_insert_eq.
  - apply (fmap_inj_items PPlot); [by intros ?? [= ]|].
    change (coll_items KPlots (S (S (next_loc st))) st5
            = PPlot <$> default [] ps).
    rewrite Hi5, Hc4, Hc3, Hc2, Hc1 by congruence.
    destruct ps; [done|]. cbn [default fmap option_fmap option_map coll_items].
    subst st0. cbn [after_defaults heap_plots].
    by rewrite lookup_total_insert_eq.
  - intros k l Hl.
    rewrite Hc5, Hc4, Hc3, Hc2, Hc1
      by (intros [= ]; subst; lia).
    subst st0. destruct k; cbn [coll_items after_defaults heap_materials heap_tallies heap_plots];
      rewrite lookup_total_insert_ne; (reflexivity || lia).
  - by rewrite Hn5, Hn4, Hn3, Hn2, Hn1.
  - by rewrite Hr5, Hr4, Hr3, Hr2, Hr1.
Qed.

(** X7. Constructed from collection objects, a model stores those very
    objects, shared with the caller and with their contents as they were;
    the default collections the constructor allocates first are dropped. *)
Theorem constructor_shares_collections (lm lt lp : loc) (st : State) :
  lm < next_loc st → lt < next_loc st → lp < next_loc st →
  ∃ st',
    Model.__init__ PNone (PMaterials lm) PNone (PTallies lt) PNone (PPlots lp) st
    = (Ok tt, st') ∧
    _materials (self st') = Some (PMaterials lm) ∧
    _tallies (self st') = Some (PTallies lt) ∧
    _plots (self st') = Some (PPlots lp) ∧
    heap_materials st' !!! lm = heap_materials st !!! lm ∧
    heap_tallies st' !!! lt = heap_tallies st !!! lt ∧
    heap_plots st' !!! lp = heap_plots st !!! lp.
Proof.
  intros Hm Ht Hp. eexists.
  rewrite init_split by reflexivity. unfold init_overrides.
  cbn [is_None negb].
  erewrite bind_ok; [|reflexivity].
  erewrite bind_ok; [|exact (assign_stores P_materials (PMaterials lm) _ eq_refl)].
  erewrite bind_ok; [|reflexivity].
  erewrite bind_ok; [|exact (assign_stores P_tallies (PTallies lt) _ eq_refl)].
  split; [exact (assign_stores P_plots (PPlots lp) _ eq_refl)|].
  cbn [self with_self set__materials set__tallies set__plots _materials _tallies
       _plots heap_materials heap_tallies heap_plots after_defaults].
  rewrite !lookup_total_insert_ne by lia. done.
Qed.

Lemma init_wrong_cmfd_state geometry materials settings tallies cmfd plots st :
  isinstance cmfd [ClsCMFD; ClsNoneType] = false →
  Model.__init__ geometry materials settings tallies cmfd plots st
  = (Raise (TypeError "cmfd"),
     with_self (set__settings (PSettings default_settings)
                 (set__materials (PMaterials (next_loc st))
                   (set__geometry (PGeometry {| all_materials := [] |})
                      (self st))))
       (with_heap_materials (<[next_loc st := []]> (heap_materials st))
          (with_next_loc (S (next_loc st)) st))).
Proof.
  intros Hc. unfold Model.__init__.
  destruct st as [o hm ht hp nl tr].
  erewrite bind_ok; [|reflexivity].
  erewrite bind_ok;
    [|erewrite bind_ok; [|reflexivity];
      rewrite materials_setter_shape;
      apply (collection_setter_stores _ _ _ _ KMaterials);
      [apply (iterable_of_coll KMaterials) | reflexivity]].
  erewrite bind_ok; [|reflexivity].
  apply bind_raise.
  unfold Model.cmfd_setter. rewrite plain_setter. by rewrite Hc.
Qed.

(** X8. The constructor assigns cmfd before it looks at any other argument:
    a cmfd that is neither a CMFD nor [None] makes it raise [TypeError] for
    cmfd whatever the other arguments are, after the default geometry,
    materials and settings have been assigned and before tallies and plots
    are; no external call is made. *)
Theorem constructor_checks_cmfd_first
    (geometry materials settings tallies cmfd plots : pyval) (st : State) :
  stored_as_is P_cmfd cmfd = false →
  ∃ st',
    Model.__init__ geometry materials settings tallies cmfd plots st
    = (Raise (TypeError "cmfd"), st') ∧
    Model.__init__ PNone PNone PNone PNone cmfd PNone st
    = (Raise (TypeError "cmfd"), st') ∧
    _geometry (self st') = Some (PGeometry {| all_materials := [] |}) ∧
    _materials (self st') = Some (PMaterials (next_loc st)) ∧
    _settings (self st') = Some (PSettings default_settings) ∧
    _tallies (self st') = _tallies (self st) ∧
    _cmfd (self st') = _cmfd (self st) ∧
    _plots (self st') = _plots (self st) ∧
    trace st' = trace st.
Proof.
  cbn [stored_as_is]. rewrite <- isinstance_cmfd_or_none. intros Hc.
  pose proof (λ g m s t p, init_wrong_cmfd_state g m s t cmfd p st Hc) as H.
  eexists. split; [apply H|]. split; [apply H|]. done.
Qed.

(** ** export_to_xml beyond the claims *)

Lemma on_model_after_export mv st :
  on_model mv (after_export mv st) = after_export mv st.
Proof. by apply on_model_self. Qed.

(** X9. [export_to_xml] does not change the model: the six attributes and
    the contents of every collection that existed before the call are as
    they were.  In particular an empty materials collection stays empty: the
    collection derived from the geometry is exported but not stored. *)
Theorem export_keeps_model (mv : ModelView) (st : State) :
  ∃ st',
    Model.export_to_xml (on_model mv st) = (Ok tt, st') ∧
    self st' = obj_of mv ∧
    ∀ k l, l < next_loc st → coll_items k l st' = coll_items k l st.
Proof.
  exists (after_export mv st). split; [apply export_to_xml_model|].
  split; [done|]. intros k l Hl.
  destruct k; cbn [coll_items after_export heap_materials heap_tallies heap_plots];
    [|done..].
  destruct (is_nil _); [|done]. rewrite lookup_total_insert_ne by lia. done.
Qed.

(** X10. [export_to_xml] only exports, and in a fixed order: settings,
    geometry, materials, tallies, cmfd, plots, each file at most once. *)
Theorem export_order (mv : ModelView) (st : State) :
  ∃ st',
    Model.export_to_xml (on_model mv st) = (Ok tt, st') ∧
    forallb is_export (events_since (on_model mv st) st') = true ∧
    xml_path <$> documents (events_since (on_model mv st) st')
    = ["settings.xml"] ++
      (if dagmc (mv_settings mv) then [] else ["geometry.xml"]) ++
      ["materials.xml"] ++
      (if is_nil (heap_tallies st !!! mv_tallies mv) then [] else ["tallies.xml"]) ++
      (if mv_cmfd mv is Some _ then ["cmfd.xml"] else []) ++
      (if is_nil (heap_plots st !!! mv_plots mv) then [] else ["plots.xml"]).
Proof.
  exists (after_export mv st). split; [apply export_to_xml_model|].
  rewrite events_since_export. split; [apply export_events_are_exports|].
  unfold export_events, materials_export.
  destruct (dagmc _), (is_nil (heap_materials st !!! _)),
    (is_nil (heap_tallies st !!! _)), (mv_cmfd mv),
    (is_nil (heap_plots st !!! _)); reflexivity.
Qed.

(** X11. Exporting a model twice writes the same documents the second time
    as the first. *)
Theorem export_twice_same_documents (mv : ModelView) (st : State) :
  mv_materials mv < next_loc st →
  ∃ st1 st2,
    Model.export_to_xml (on_model mv st) = (Ok tt, st1) ∧
    Model.export_to_xml st1 = (Ok tt, st2) ∧
    documents (events_since st1 st2)
    = documents (events_since (on_model mv st) st1).
Proof.
  intros Hl. exists (after_export mv st), (after_export mv (after_export mv st)).
  split; [apply export_to_xml_model|].
  split; [rewrite <- (on_model_after_export mv st) at 1; apply export_to_xml_model|].
  rewrite events_since_export.
  rewrite <- (on_model_after_export mv st) at 1. rewrite events_since_export.
  unfold export_events, materials_export.
  cbn [after_export heap_materials heap_tallies heap_plots next_loc].
  destruct (is_nil (heap_materials st !!! mv_materials mv)) eqn:Hm.
  - rewrite lookup_total_insert_ne by lia. rewrite Hm.
    destruct (dagmc _), (is_nil (heap_tallies st !!! _)), (mv_cmfd mv),
      (is_nil (heap_plots st !!! _)); reflexivity.
  - rewrite Hm.
    destruct (dagmc _), (is_nil (heap_tallies st !!! _)), (mv_cmfd mv),
      (is_nil (heap_plots st !!! _)); reflexivity.
Qed.

(** ** run and deplete beyond the claims *)



(** X13. The world [run] leaves is the world [export_to_xml] leaves with the
    trace extended by one solver call, handed the keyword arguments as they
    are, and by at most one statepoint opened and then closed: [run] changes
    no attribute and no collection of the model. *)
Theorem run_extends_export
    (k_combined : string → UFloat) (kwargs : Kwargs)
    (mv : ModelView) (st : State) :
  ∃ tail,
    (Model.run k_combined kwargs (on_model mv st)).2
    = with_trace
        (trace (Model.export_to_xml (on_model mv st)).2
         ++ OpenmcRun kwargs :: tail)
        (Model.export_to_xml (on_model mv st)).2 ∧
    (tail = [] ∨ ∃ f, tail = [StatePointOpen f; StatePointClose f]).
Proof.
  rewrite run_model, export_to_xml_model. cbn [snd after_export trace].
  destruct (batch_read _) as [n|].
  - exists [StatePointOpen (statepoint_name n); StatePointClose (statepoint_name n)].
    split; [by rewrite <- app_assoc | right; by eexists].
  - exists []. split; [by rewrite <- app_assoc | by left].
Qed.

Lemma string_app_inj_r (a a' r : string) : a +:+ r = a' +:+ r → a = a'.
Proof.
  assert (∀ s t, String.length (s +:+ t) = String.length s + String.length t) as Hlen.
  { induction s as [|c s IH]; intros t; simpl; [done|]. by rewrite IH. }
  revert a'. induction a as [|c a IH]; intros [|c' a'] H; simpl in H.
  - done.
  - apply (f_equal String.length) in H. rewrite !Hlen in H. simpl in H. lia.
  - apply (f_equal String.length) in H. rewrite !Hlen in H. simpl in H. lia.
  - injection H as -> H. f_equal. by apply IH.
Qed.


(** X14. The statepoint file names of different batch numbers differ, so
    [run] never reads the statepoint of another batch than the one it looks
    up. *)
Theorem statepoint_names_differ (z z' : Z) :
  "statepoint." +:+ py_format (Some z) +:+ ".h5"
  = "statepoint." +:+ py_format (Some z') +:+ ".h5" →
  z = z'.
Proof.
  intros H. apply (inj (String.app "statepoint.")) in H.
  apply string_app_inj_r in H. cbn [py_format] in H.
  by apply (inj pretty) in H.
Qed.

(** X15. [deplete] builds the operator from the model's geometry and
    settings and the chain file before it looks at the method, so also for a
    method it then rejects; it exports nothing, never runs the solver
    itself, and leaves the model and its collections as they are. *)
Theorem deplete_builds_operator_first
    (timesteps power chain_file method : pyval) (kwargs : Kwargs)
    (mv : ModelView) (st : State) :
  let op := {| op_geometry := PGeometry (mv_geometry mv);
               op_settings := PSettings (mv_settings mv);
               op_chain_file := chain_file |} in
  ∃ tail,
    (Model.deplete timesteps power chain_file method kwargs (on_model mv st)).2
    = with_trace (trace st ++ OperatorInit op :: tail) (on_model mv st) ∧
    (tail = [] ∨ ∃ f, tail = [IntegratorCall f op timesteps power kwargs]).
Proof.
  intros op. rewrite deplete_model.
  destruct (py_eq_str method "predictor"); [|destruct (py_eq_str method "cecm")].
  - exists [IntegratorCall predictor op timesteps power kwargs].
    split; [done | right; by eexists].
  - exists [IntegratorCall cecm op timesteps power kwargs].
    split; [done | right; by eexists].
  - exists []. split; [done | by left].
Qed.

(** ** Collections reached through the getters *)

(** X16. Tallies appended through the getter, as the regression test adds
    them, land in the collection the model stores, after the ones already
    there, and the next [export_to_xml] writes them all to tallies.xml. *)
Theorem appended_tallies_are_exported
    (t : Tally) (ts : list Tally) (mv : ModelView) (st : State) :
  ∃ st1 st2,
    for_ (PTally <$> t :: ts) (append_via_getter P_tallies) (on_model mv st)
    = (Ok tt, st1) ∧
    self st1 = obj_of mv ∧
    heap_tallies st1 !!! mv_tallies mv
    = heap_tallies st !!! mv_tallies mv ++ t :: ts ∧
    Model.export_to_xml st1 = (Ok tt, st2) ∧
    exported_to "tallies.xml" (events_since st1 st2)
    = [(PTallies (mv_tallies mv),
        XTallies (heap_tallies st !!! mv_tallies mv ++ t :: ts))].
Proof.
  destruct (for_append_items "_tallies" _tallies KTallies (mv_tallies mv)
              (PTally <$> t :: ts) (on_model mv st) eq_refl)
    as (st1 & Hfor & (Hs & Ht & Hn & Hc) & Hitems).
  { by apply forallb_fmap_instances. }
  assert (heap_tallies st1 !!! mv_tallies mv
          = heap_tallies st !!! mv_tallies mv ++ t :: ts) as Hheap.
  { apply (fmap_inj_items PTally); [by intros ?? [= ]|].
    rewrite fmap_app. exact Hitems. }
  exists st1, (after_export mv st1).
  split; [exact Hfor|]. split; [exact Hs|]. split; [exact Hheap|].
  pose proof (export_to_xml_model mv st1) as Hexp.
  pose proof (events_since_export mv st1) as Hev.
  rewrite (on_model_self mv st1 Hs) in Hexp, Hev.
  split; [exact Hexp|].
  rewrite Hev. unfold export_events, materials_export.
  rewrite Hheap.
  destruct (heap_tallies st !!! mv_tallies mv);
    destruct (dagmc _), (is_nil (heap_materials st1 !!! _)), (mv_cmfd mv),
      (is_nil (heap_plots st1 !!! _)); reflexivity.
Qed.

(** X17. A collection object handed to a setter stays shared with the
    caller: a later assignment of a plain sequence empties and refills that
    very object, so the caller's collection changes with the model's. *)
Theorem refill_overwrites_shared_collection
    (l : loc) (ms : list Material) (mv : ModelView) (st : State) :
  ∃ st',
    (assign P_materials (PMaterials l) ;;
     assign P_materials (tuple_of PMaterial ms)) (on_model mv st)
    = (Ok tt, st') ∧
    getter P_materials st' = (Ok (PMaterials l), st') ∧
    py_iter (PMaterials l) st' = (Ok (PMaterial <$> ms), st').
Proof.
  set (st1 := with_self (set__materials (PMaterials l) (self (on_model mv st)))
                (on_model mv st)).
  destruct (collection_setter_refill_items "materials" "_materials" _materials
              set__materials KMaterials l (tuple_of PMaterial ms)
              (PMaterial <$> ms) st1 eq_refl eq_refl)
    as (st2 & Hset & (Hs & _) & Hitems); [by apply forallb_fmap_instances | done |].
  exists st2. split; [|split].
  - erewrite bind_ok;
      [exact Hset | exact (assign_stores P_materials (PMaterials l) _ eq_refl)].
  - cbn [getter]. unfold Model.materials. apply getattr_some. by rewrite Hs.
  - by rewrite (py_iter_coll KMaterials), Hitems.
Qed.

(** ** Construction and assignment are internal *)

Lemma assign_model_outcome p v st :
  is_model_state st →
  (∃ name, assign p v st = (Raise (TypeError name), st)) ∨
  (∃ st', assign p v st = (Ok tt, st') ∧ is_model_state st' ∧ trace st' = trace st).
Proof.
  intros Hm. destruct (assign p v st) as [[[]|e] st'] eqn:Ha.
  - right. exists st'. split; [done|]. split; [by eapply assign_keeps_model|].
    destruct Hm as [mv Hs]. destruct p; cbn [assign] in Ha.
    + unfold Model.geometry_setter in Ha. rewrite plain_setter in Ha.
      destruct (isinstance v _); [by injection Ha as <- | discriminate].
    + rewrite materials_setter_shape in Ha.
      destruct (collection_setter_cases "materials" "_materials" _materials
                  set__materials KMaterials (mv_materials mv) v st)
        as [H|[(l' & _ & H)|(st1 & H & _ & Ht)]]; [by rewrite Hs|..];
        rewrite H in Ha; try discriminate; injection Ha as <-; (done || exact Ht).
    + unfold Model.settings_setter in Ha. rewrite plain_setter in Ha.
      destruct (isinstance v _); [by injection Ha as <- | discriminate].
    + rewrite tallies_setter_shape in Ha.
      destruct (collection_setter_cases "tallies" "_tallies" _tallies
                  set__tallies KTallies (mv_tallies mv) v st)
        as [H|[(l' & _ & H)|(st1 & H & _ & Ht)]]; [by rewrite Hs|..];
        rewrite H in Ha; try discriminate; injection Ha as <-; (done || exact Ht).
    + unfold Model.cmfd_setter in Ha. rewrite plain_setter in Ha.
      destruct (isinstance v _); [by injection Ha as <- | discriminate].
    + rewrite plots_setter_shape in Ha.
      destruct (collection_setter_cases "plots" "_plots" _plots
                  set__plots KPlots (mv_plots mv) v st)
        as [H|[(l' & _ & H)|(st1 & H & _ & Ht)]]; [by rewrite Hs|..];
        rewrite H in Ha; try discriminate; injection Ha as <-; (done || exact Ht).
  - left. destruct Hm as [mv Hs].
    destruct (right_type p v st) eqn:Hr.
    + rewrite <- (on_model_self mv st Hs) in Ha, Hr.
      apply assign_right_type_returns in Hr as [st1 Hr]. congruence.
    + destruct (assign_wrong_type p v st Hr) as [name H]. exists name. congruence.
Qed.

Lemma override_outcome p v st :
  is_model_state st →
  (∃ name, (if negb (is_None v) then assign p v else mret tt) st
           = (Raise (TypeError name), st)) ∨
  (∃ st', (if negb (is_None v) then assign p v else mret tt) st = (Ok tt, st') ∧
          is_model_state st' ∧ trace st' = trace st).
Proof.
  intros Hm. destruct (negb (is_None v)).
  - by apply assign_model_outcome.
  - right. by exists st.
Qed.

(** X18. Constructing a model and assigning to its properties is purely
    internal: whatever the arguments, no external call is made, whether the
    call returns or raises, and nothing but [TypeError] is ever raised. *)
Theorem construction_and_assignment_are_internal
    (geometry materials settings tallies cmfd plots : pyval)
    (p : Property) (v : pyval) (mv : ModelView) (st : State) :
  (trace (Model.__init__ geometry materials settings tallies cmfd plots st).2
   = trace st ∧
   ((Model.__init__ geometry materials settings tallies cmfd plots st).1 = Ok tt ∨
    ∃ name, (Model.__init__ geometry materials settings tallies cmfd plots st).1
            = Raise (TypeError name))) ∧
  (trace (assign p v (on_model mv st)).2 = trace st ∧
   ((assign p v (on_model mv st)).1 = Ok tt ∨
    ∃ name, (assign p v (on_model mv st)).1 = Raise (TypeError name))).
Proof.
  split.
  - destruct (isinstance cmfd [ClsCMFD; ClsNoneType]) eqn:Hc.
    + rewrite init_split by done. unfold init_overrides.
      pose proof (after_defaults_is_model cmfd st Hc) as Hm0.
      assert (trace (after_defaults cmfd st) = trace st) as Ht0 by done.
      revert Hm0 Ht0. generalize (after_defaults cmfd st). intros s0 Hm0 Ht0.
      destruct (override_outcome P_geometry geometry s0 Hm0)
        as [[n H]|(s1 & H & Hm1 & Ht1)];
        [erewrite bind_raise by exact H; eauto|erewrite bind_ok by exact H].
      destruct (override_outcome P_materials materials s1 Hm1)
        as [[n H']|(s2 & H' & Hm2 & Ht2)];
        [erewrite bind_raise by exact H'; cbn [fst snd]; split; [congruence|eauto]
        |erewrite bind_ok by exact H'].
      destruct (override_outcome P_settings settings s2 Hm2)
        as [[n H'']|(s3 & H'' & Hm3 & Ht3)];
        [erewrite bind_raise by exact H''; cbn [fst snd]; split; [congruence|eauto]
        |erewrite bind_ok by exact H''].
      destruct (override_outcome P_tallies tallies s3 Hm3)
        as [[n H3]|(s4 & H3 & Hm4 & Ht4)];
        [erewrite bind_raise by exact H3; cbn [fst snd]; split; [congruence|eauto]
        |erewrite bind_ok by exact H3].
      destruct (override_outcome P_plots plots s4 Hm4)
        as [[n H4]|(s5 & H4 & Hm5 & Ht5)];
        cbn [assign] in H4; rewrite H4; cbn [fst snd]; split; (congruence || eauto).
    + rewrite init_wrong_cmfd_state by done. split; [done | eauto].
  - destruct (assign_model_outcome p v (on_model mv st)) as [[n H]|(s1 & H & _ & Ht)];
      [by exists mv | rewrite H; eauto | rewrite H; eauto].
Qed.

(** ** Assignment followed by export *)

(** X22. Materials assigned as a plain sequence are the ones the next
    [export_to_xml] writes, from the collection the model stores; assigning
    an empty sequence makes the export derive the materials from the geometry
    again. *)
Theorem assigned_materials_are_exported
    (ms : list Material) (mv : ModelView) (st : State) :
  ∃ st1 st2,
    assign P_materials (tuple_of PMaterial ms) (on_model mv st) = (Ok tt, st1) ∧
    Model.export_to_xml st1 = (Ok tt, st2) ∧
    exported_to "materials.xml" (events_since st1 st2)
    = if is_nil ms
      then [(PMaterials (next_loc st),
             XMaterials (snd <$> all_materials (mv_geometry mv)))]
      else [(PMaterials (mv_materials mv), XMaterials ms)].
Proof.
  destruct (collection_setter_refill_items "materials" "_materials" _materials
              set__materials KMaterials (mv_materials mv) (tuple_of PMaterial ms)
              (PMaterial <$> ms) (on_model mv st) eq_refl eq_refl)
    as (st1 & Hset & (Hs & _ & Hn & _) & Hitems);
    [by apply forallb_fmap_instances | done |].
  assert (heap_materials st1 !!! mv_materials mv = ms) as Hheap.
  { apply (fmap_inj_items PMaterial); [by intros ?? [= ]|]. exact Hitems. }
  pose proof (export_to_xml_model mv st1) as Hexp.
  pose proof (events_since_export mv st1) as Hev.
  rewrite (on_model_self mv st1 Hs) in Hexp, Hev.
  exists st1, (after_export mv st1).
  split; [exact Hset|]. split; [exact Hexp|].
  rewrite Hev. unfold export_events, materials_export.
  rewrite Hheap, Hn. cbn [next_loc on_model with_self].
  destruct ms;
    destruct (dagmc _), (is_nil (heap_tallies st1 !!! _)), (mv_cmfd mv),
      (is_nil (heap_plots st1 !!! _)); reflexivity.
Qed.

(** ** The regression test *)

Section TestProofs.

Import MgTalliesTest.


Context {Filter Nuclide : Type}.
Variables mesh_filter energy_filter energyout_filter : Filter.
Variables matching_energy_filter matching_eout_filter mat_filter : Filter.
Variable xs_data : list Nuclide.

(** X20. The test only appends: the tallies the model came with stay in
    front, in order, followed by the same twenty new ones whatever the model
    held. *)
Theorem test_appends_twenty_tallies (tallies : list (@TallySetup Filter Nuclide)) :
  ∃ new,
    test_mg_tallies_tallies mesh_filter energy_filter energyout_filter
      matching_energy_filter matching_eout_filter mat_filter xs_data tallies
    = tallies ++ new ∧
    length new = 20 ∧
    new = test_mg_tallies_tallies mesh_filter energy_filter energyout_filter
            matching_energy_filter matching_eout_filter mat_filter xs_data [].
Proof.
  eexists. split; [|split; [|reflexivity]].
  - unfold test_mg_tallies_tallies, nuclide_pass, energy_pass.
    cbn [foldl]. rewrite <- !app_assoc. reflexivity.
  - reflexivity.
Qed.

(** X21. The pass with nuclides repeats the ten tallies of the pass
    without, in the same order and with the same filters and estimators; it
    sets the nuclides and leaves out the flux score, and differs in nothing
    else.  Both passes come after the tallies the model held. *)
Theorem nuclide_pass_mirrors_first_pass
    (tallies : list (@TallySetup Filter Nuclide)) :
  ∃ first,
    first = nuclide_pass mesh_filter energy_filter energyout_filter
              matching_energy_filter matching_eout_filter mat_filter xs_data
              false [] ∧
    test_mg_tallies_tallies mesh_filter energy_filter energyout_filter
      matching_energy_filter matching_eout_filter mat_filter xs_data tallies
    = tallies ++ first ++ (for_nuclides xs_data <$> first).
Proof.
  eexists. split; [reflexivity|].
  unfold test_mg_tallies_tallies, nuclide_pass, energy_pass.
  cbn [foldl]. rewrite <- !app_assoc. reflexivity.
Qed.

End TestProofs.

(** ** Witnesses of the properties beyond the claims *)

Lemma assigned_object_is_stored_witness :
  stored_as_is P_materials (PMaterials 0) = true ∧
  ∃ st',
    assign P_materials (PMaterials 0)
      (on_model (sample_model ten_batches) sample_world) = (Ok tt, st') ∧
    getter P_materials st' = (Ok (PMaterials 0), st').
Proof.
  split; [reflexivity|].
  destruct (assigned_object_is_stored P_materials (PMaterials 0)
              (on_model (sample_model ten_batches) sample_world) eq_refl)
    as (st' & Hassign & Hget & _).
  exists st'. split; [exact Hassign | exact Hget].
Defined.


Lemma sample_reachable :
  reachable (on_model (sample_model ten_batches) sample_world).
Proof. eapply reach_init. apply init_sample. Qed.

Lemma reachable_states_are_models_witness :
  reachable (on_model (sample_model ten_batches) sample_world) ∧
  ∃ mv, self (on_model (sample_model ten_batches) sample_world) = obj_of mv.
Proof.
  split; [exact sample_reachable|].
  exact (reachable_states_are_models _ sample_reachable).
Defined.


Lemma constructor_shares_collections_witness :
  0 < next_loc sample_world ∧ 1 < next_loc sample_world ∧
  2 < next_loc sample_world ∧
  ∃ st',
    Model.__init__ PNone (PMaterials 0) PNone (PTallies 1) PNone (PPlots 2)
      sample_world = (Ok tt, st') ∧
    _materials (self st') = Some (PMaterials 0).
Proof.
  assert (0 < next_loc sample_world) as H0 by (cbn; lia).
  assert (1 < next_loc sample_world) as H1 by (cbn; lia).
  assert (2 < next_loc sample_world) as H2 by (cbn; lia).
  split; [exact H0|]. split; [exact H1|]. split; [exact H2|].
  destruct (constructor_shares_collections 0 1 2 sample_world H0 H1 H2)
    as (st' & Hinit & Hm & _).
  exists st'. split; [exact Hinit | exact Hm].
Defined.

Lemma constructor_checks_cmfd_first_witness :
  stored_as_is P_cmfd (PInt 1) = false ∧
  ∃ st',
    Model.__init__ (PStr "no geometry") PNone PNone PNone (PInt 1) PNone empty_state
    = (Raise (TypeError "cmfd"), st').
Proof.
  split; [reflexivity|].
  destruct (constructor_checks_cmfd_first (PStr "no geometry") PNone PNone PNone
              (PInt 1) PNone empty_state eq_refl) as (st' & Hinit & _).
  exists st'. exact Hinit.
Defined.

Lemma export_twice_same_documents_witness :
  mv_materials (sample_model ten_batches) < next_loc sample_world ∧
  ∃ st1 st2,
    Model.export_to_xml (on_model (sample_model ten_batches) sample_world)
    = (Ok tt, st1) ∧
    Model.export_to_xml st1 = (Ok tt, st2) ∧
    documents (events_since st1 st2)
    = documents (events_since (on_model (sample_model ten_batches) sample_world) st1).
Proof.
  assert (mv_materials (sample_model ten_batches) < next_loc sample_world) as H
    by (cbn; lia).
  split; [exact H|].
  exact (export_twice_same_documents (sample_model ten_batches) sample_world H).
Defined.

Lemma statepoint_names_differ_witness :
  "statepoint." +:+ py_format (Some 10%Z) +:+ ".h5"
  = "statepoint." +:+ py_format (Some 10%Z) +:+ ".h5" ∧
  10%Z = 10%Z.
Proof.
  split; [reflexivity|].
  exact (statepoint_names_differ 10 10 eq_refl).
Defined.
